(** * aligner_sw_common.h: dynamic-programming result, work counters and
      report sinks of the aligner.

    The development embeds the header [aligner_sw_common.h]:

    - [SwResult]: per-invocation work counters around an owned [AlnRes];
    - [SwMetrics]: the lock-carrying aggregator of those counters;
    - [SwCounters], [SwAction] and the two sink interfaces with their
      stream implementations.

    Counters are [uint64_t] in the source; they are integers in [Z] here and
    every [+=] is written with its reduction modulo [2^64].  Objects are
    passed explicitly: a method [void f(args)] of a struct becomes a function
    from the receiver (and the arguments) to the receiver after the call. *)

From Stdlib Require Import ZArith List String Ascii Bool Lia DecimalString.
From Stdlib Require Import Permutation DecimalFacts DecimalPos DecimalN.
Import ListNotations.
Local Open Scope Z_scope.

Set Implicit Arguments.

(* ------------------------------------------------------------------ *)
(** ** Machine integers *)

Module U64.

(** [uint64_t]: the values [0 .. 2^64 - 1]. *)
Definition modulus : Z := 2 ^ 64.

Definition max_value : Z := modulus - 1.

Definition in_range (x : Z) : bool := (0 <=? x) && (x <? modulus).

(** Conversion to [uint64_t] keeps the low 64 bits. *)
Definition wrap (x : Z) : Z := x mod modulus.

(** [a + b] on two [uint64_t] operands. *)
Definition add (a b : Z) : Z := wrap (a + b).

End U64.

(* ------------------------------------------------------------------ *)
(** ** Locks *)

Module Threading.

(** Modelled from the spec: [MUTEX_T], [MUTEX_INIT], [MUTEX_LOCK] and
    [MUTEX_UNLOCK] come from threading.h, which is not among the sources.
    The spec speaks of "the aggregator's own lock" and of a sink's "internal
    lock" that is acquired and released; a mutex is therefore either free or
    held.  [MUTEX_LOCK] describes the mutex at the moment the call returns
    (waiting for another holder is the business of [Interleaving.step]
    below). *)
Inductive MUTEX_T : Type := Unlocked | Locked.

Definition MUTEX_INIT : MUTEX_T := Unlocked.

Definition MUTEX_LOCK (l : MUTEX_T) : MUTEX_T := Locked.

Definition MUTEX_UNLOCK (l : MUTEX_T) : MUTEX_T := Unlocked.

Definition held (l : MUTEX_T) : bool :=
  match l with Locked => true | Unlocked => false end.

(** Modelled from the spec: the guard class [ThreadSafe] of threading.h is
    not among the sources.  Per the spec, [merge] "must serialize concurrent
    callers via the aggregator's own lock whenever lockRequired is true",
    and the sinks "acquire an internal lock ... and release the lock": the
    guard takes the mutex on construction when its flag is set (the flag
    defaults to true, as the one-argument uses in the sinks require) and
    gives it back on destruction. *)
Record ThreadSafe : Type := mkThreadSafe { locked : bool }.

(** Constructor: returns the guard and the mutex as the constructor leaves
    it. *)
Definition ThreadSafe_ctor (l : MUTEX_T) (getLock : bool) : ThreadSafe * MUTEX_T :=
  (mkThreadSafe getLock, if getLock then MUTEX_LOCK l else l).

(** Destructor. *)
Definition ThreadSafe_dtor (ts : ThreadSafe) (l : MUTEX_T) : MUTEX_T :=
  if locked ts then MUTEX_UNLOCK l else l.

End Threading.

Import Threading.

(* ------------------------------------------------------------------ *)
(** ** The owned alignment result *)

Module AlnRes.

(** Modelled from the spec: the kinds of edit the backtrace emits
    (section 4.2: substitution, insertion, deletion, resolution of an
    ambiguous reference character, colour edit).  aligner_result.h is not
    among the sources. *)
Inductive EditType : Type :=
| EDIT_SUBSTITUTION
| EDIT_INSERTION
| EDIT_DELETION
| EDIT_RESOLUTION
| EDIT_COLOR.

(** Modelled from the spec: one edit record; a colour edit may be marked as
    a colour miscall (section 3). *)
Record Edit : Type := mkEdit {
  edit_pos : nat;
  edit_type : EditType;
  edit_miscall : bool
}.

(** Modelled from the spec: class [AlnRes] of aligner_result.h is not among
    the sources.  Section 3 lists what the result owns: an ordered sequence
    of nucleotide edits, one of ambiguous-reference resolutions, one of
    colour edits, the best score and the second-best score if any.  A score
    is present once an alignment has been installed. *)
Record t : Type := mk {
  ned : list Edit;
  aed : list Edit;
  ced : list Edit;
  score : option Z;
  oscore : option Z
}.

(** Modelled from the spec: the default constructor of [AlnRes], "constructed
    empty per alignment attempt". *)
Definition ctor : t := mk [] [] [] None None.

(** Modelled from the spec: [AlnRes::reset], "clears all counters and edit
    lists for reuse"; no alignment is installed afterwards. *)
Definition reset (a : t) : t := mk [] [] [] None None.

(** Modelled from the spec: [AlnRes::reverseEdits], "reverses every edit
    list in place". *)
Definition reverseEdits (a : t) : t :=
  mk (rev (ned a)) (rev (aed a)) (rev (ced a)) (score a) (oscore a).

(** Modelled from the spec: [AlnRes::empty], "reports whether any alignment
    was found" (the header: "true iff no result has been installed"). *)
Definition empty (a : t) : bool :=
  match score a with
  | None => true
  | Some _ => false
  end.

End AlnRes.

(* ------------------------------------------------------------------ *)
(** ** SwResult *)

Module SwResult.

Record t : Type := mk {
  alres : AlnRes.t;
  sws : Z;        (* # DP problems solved *)
  swcups : Z;     (* # DP cell updates *)
  swrows : Z;     (* # DP row updates *)
  swskiprows : Z; (* # skipped DP row updates *)
  swskip : Z;     (* # DP problems skipped by sse filter *)
  swsucc : Z;     (* # DP problems resulting in alignment *)
  swfail : Z;     (* # DP problems not resulting in alignment *)
  swbts : Z;      (* # DP backtrace steps *)
  nup : Z;        (* upstream decoded nucleotide *)
  ndn : Z         (* downstream decoded nucleotide *)
}.

(** Every counter is a [uint64_t]. *)
Definition wf (r : t) : Prop :=
  U64.in_range (sws r) = true /\ U64.in_range (swcups r) = true /\
  U64.in_range (swrows r) = true /\ U64.in_range (swskiprows r) = true /\
  U64.in_range (swskip r) = true /\ U64.in_range (swsucc r) = true /\
  U64.in_range (swfail r) = true /\ U64.in_range (swbts r) = true.

(** The eight work counters, by name. *)
Inductive counter : Type :=
| SWS | SWCUPS | SWROWS | SWSKIPROWS | SWSKIP | SWSUCC | SWFAIL | SWBTS.

(** Reading the counter named [c]. *)
Definition get (c : counter) (r : t) : Z :=
  match c with
  | SWS => sws r
  | SWCUPS => swcups r
  | SWROWS => swrows r
  | SWSKIPROWS => swskiprows r
  | SWSKIP => swskip r
  | SWSUCC => swsucc r
  | SWFAIL => swfail r
  | SWBTS => swbts r
  end.

(** Assignment to one member; the other members keep their value. *)
Definition set_alres (v : AlnRes.t) (r : t) : t :=
  mk v (sws r) (swcups r) (swrows r) (swskiprows r) (swskip r) (swsucc r)
     (swfail r) (swbts r) (nup r) (ndn r).
Definition set_sws (v : Z) (r : t) : t :=
  mk (alres r) v (swcups r) (swrows r) (swskiprows r) (swskip r) (swsucc r)
     (swfail r) (swbts r) (nup r) (ndn r).
Definition set_swcups (v : Z) (r : t) : t :=
  mk (alres r) (sws r) v (swrows r) (swskiprows r) (swskip r) (swsucc r)
     (swfail r) (swbts r) (nup r) (ndn r).
Definition set_swrows (v : Z) (r : t) : t :=
  mk (alres r) (sws r) (swcups r) v (swskiprows r) (swskip r) (swsucc r)
     (swfail r) (swbts r) (nup r) (ndn r).
Definition set_swskiprows (v : Z) (r : t) : t :=
  mk (alres r) (sws r) (swcups r) (swrows r) v (swskip r) (swsucc r)
     (swfail r) (swbts r) (nup r) (ndn r).
Definition set_swskip (v : Z) (r : t) : t :=
  mk (alres r) (sws r) (swcups r) (swrows r) (swskiprows r) v (swsucc r)
     (swfail r) (swbts r) (nup r) (ndn r).
Definition set_swsucc (v : Z) (r : t) : t :=
  mk (alres r) (sws r) (swcups r) (swrows r) (swskiprows r) (swskip r) v
     (swfail r) (swbts r) (nup r) (ndn r).
Definition set_swfail (v : Z) (r : t) : t :=
  mk (alres r) (sws r) (swcups r) (swrows r) (swskiprows r) (swskip r)
     (swsucc r) v (swbts r) (nup r) (ndn r).
Definition set_swbts (v : Z) (r : t) : t :=
  mk (alres r) (sws r) (swcups r) (swrows r) (swskiprows r) (swskip r)
     (swsucc r) (swfail r) v (nup r) (ndn r).

(** The default constructor, run on the storage [raw] of the new object.
    Its initialiser list names [alres] and the eight counters; [nup] and
    [ndn] are not named and keep whatever the storage holds. *)
Definition ctor (raw : t) : t :=
  mk AlnRes.ctor 0 0 0 0 0 0 0 0 (nup raw) (ndn raw).

(** [reset()].  The chained assignment
    [sws = swcups = ... = swfail = swbts = 0] is evaluated from the right:
    [swbts] receives 0 and each member to its left receives the value of the
    assignment to its right.  Then [alres.reset()]. *)
Definition reset (r : t) : t :=
  let r := set_swbts 0 r in
  let r := set_swfail (swbts r) r in
  let r := set_swsucc (swfail r) r in
  let r := set_swskip (swsucc r) r in
  let r := set_swskiprows (swskip r) r in
  let r := set_swrows (swskiprows r) r in
  let r := set_swcups (swrows r) r in
  let r := set_sws (swcups r) r in
  set_alres (AlnRes.reset (alres r)) r.

(** [reverse()]: [alres.reverseEdits()]. *)
Definition reverse (r : t) : t :=
  set_alres (AlnRes.reverseEdits (alres r)) r.

(** [empty()]: [alres.empty()]. *)
Definition empty (r : t) : bool := AlnRes.empty (alres r).

End SwResult.

(* ------------------------------------------------------------------ *)
(** ** SwMetrics *)

Module SwMetrics.

Record t : Type := mk {
  sws : Z;        (* # DP problems solved *)
  swcups : Z;     (* # DP cell updates *)
  swrows : Z;     (* # DP row updates *)
  swskiprows : Z; (* # skipped DP rows *)
  swskip : Z;     (* # DP problems skipped by sse filter *)
  swsucc : Z;     (* # DP problems resulting in alignment *)
  swfail : Z;     (* # DP problems not resulting in alignment *)
  swbts : Z;      (* # DP backtrace steps *)
  rshit : Z;      (* # DP problems avoided b/c seed hit was redundant *)
  lock : MUTEX_T
}.

(** Every counter is a [uint64_t]. *)
Definition wf (m : t) : Prop :=
  U64.in_range (sws m) = true /\ U64.in_range (swcups m) = true /\
  U64.in_range (swrows m) = true /\ U64.in_range (swskiprows m) = true /\
  U64.in_range (swskip m) = true /\ U64.in_range (swsucc m) = true /\
  U64.in_range (swfail m) = true /\ U64.in_range (swbts m) = true /\
  U64.in_range (rshit m) = true.

(** The nine counters, by name: the eight work counters that a [SwResult]
    has as well, and [rshit]. *)
Inductive counter : Type :=
| Work (w : SwResult.counter)
| RSHIT.

(** Reading the counter named [c]. *)
Definition get (c : counter) (m : t) : Z :=
  match c with
  | Work SwResult.SWS => sws m
  | Work SwResult.SWCUPS => swcups m
  | Work SwResult.SWROWS => swrows m
  | Work SwResult.SWSKIPROWS => swskiprows m
  | Work SwResult.SWSKIP => swskip m
  | Work SwResult.SWSUCC => swsucc m
  | Work SwResult.SWFAIL => swfail m
  | Work SwResult.SWBTS => swbts m
  | RSHIT => rshit m
  end.

(** Assignment to one member; the other members keep their value. *)
Definition set_sws (v : Z) (m : t) : t :=
  mk v (swcups m) (swrows m) (swskiprows m) (swskip m) (swsucc m) (swfail m)
     (swbts m) (rshit m) (lock m).
Definition set_swcups (v : Z) (m : t) : t :=
  mk (sws m) v (swrows m) (swskiprows m) (swskip m) (swsucc m) (swfail m)
     (swbts m) (rshit m) (lock m).
Definition set_swrows (v : Z) (m : t) : t :=
  mk (sws m) (swcups m) v (swskiprows m) (swskip m) (swsucc m) (swfail m)
     (swbts m) (rshit m) (lock m).
Definition set_swskiprows (v : Z) (m : t) : t :=
  mk (sws m) (swcups m) (swrows m) v (swskip m) (swsucc m) (swfail m)
     (swbts m) (rshit m) (lock m).
Definition set_swskip (v : Z) (m : t) : t :=
  mk (sws m) (swcups m) (swrows m) (swskiprows m) v (swsucc m) (swfail m)
     (swbts m) (rshit m) (lock m).
Definition set_swsucc (v : Z) (m : t) : t :=
  mk (sws m) (swcups m) (swrows m) (swskiprows m) (swskip m) v (swfail m)
     (swbts m) (rshit m) (lock m).
Definition set_swfail (v : Z) (m : t) : t :=
  mk (sws m) (swcups m) (swrows m) (swskiprows m) (swskip m) (swsucc m) v
     (swbts m) (rshit m) (lock m).
Definition set_swbts (v : Z) (m : t) : t :=
  mk (sws m) (swcups m) (swrows m) (swskiprows m) (swskip m) (swsucc m)
     (swfail m) v (rshit m) (lock m).
Definition set_rshit (v : Z) (m : t) : t :=
  mk (sws m) (swcups m) (swrows m) (swskiprows m) (swskip m) (swsucc m)
     (swfail m) (swbts m) v (lock m).
Definition set_lock (v : MUTEX_T) (m : t) : t :=
  mk (sws m) (swcups m) (swrows m) (swskiprows m) (swskip m) (swsucc m)
     (swfail m) (swbts m) (rshit m) v.

(** [reset()]: the chained assignment
    [sws = swcups = ... = swbts = rshit = 0], evaluated from the right. *)
Definition reset (m : t) : t :=
  let m := set_rshit 0 m in
  let m := set_swbts (rshit m) m in
  let m := set_swfail (swbts m) m in
  let m := set_swsucc (swfail m) m in
  let m := set_swskip (swsucc m) m in
  let m := set_swskiprows (swskip m) m in
  let m := set_swrows (swskiprows m) m in
  let m := set_swcups (swrows m) m in
  set_sws (swcups m) m.

(** The constructor [SwMetrics() { reset(); MUTEX_INIT(lock); }], run on the
    storage [raw] of the new object. *)
Definition ctor (raw : t) : t :=
  let m := reset raw in
  set_lock MUTEX_INIT m.

(** [init(sws_, ..., rshit_)]: nine assignments, in this order. *)
Definition init (m : t)
  (sws_ swcups_ swrows_ swskiprows_ swskip_ swsucc_ swfail_ swbts_ rshit_ : Z) : t :=
  let m := set_sws sws_ m in
  let m := set_swcups swcups_ m in
  let m := set_swrows swrows_ m in
  let m := set_swskiprows swskiprows_ m in
  let m := set_swskip swskip_ m in
  let m := set_swsucc swsucc_ m in
  let m := set_swfail swfail_ m in
  let m := set_swbts swbts_ m in
  set_rshit rshit_ m.

(** [update(const SwResult& r)]: eight [+=], no lock taken. *)
Definition update (m : t) (r : SwResult.t) : t :=
  let m := set_sws (U64.add (sws m) (SwResult.sws r)) m in
  let m := set_swcups (U64.add (swcups m) (SwResult.swcups r)) m in
  let m := set_swrows (U64.add (swrows m) (SwResult.swrows r)) m in
  let m := set_swskiprows (U64.add (swskiprows m) (SwResult.swskiprows r)) m in
  let m := set_swskip (U64.add (swskip m) (SwResult.swskip r)) m in
  let m := set_swsucc (U64.add (swsucc m) (SwResult.swsucc r)) m in
  let m := set_swfail (U64.add (swfail m) (SwResult.swfail r)) m in
  set_swbts (U64.add (swbts m) (SwResult.swbts r)) m.

(** [merge(const SwMetrics& r, bool getLock = false)] when [r] is an object
    other than the receiver (or a copy of it).  The guard [ts] is a named
    local: it is constructed first and destroyed when the body is left,
    after the nine [+=]. *)
Definition merge (m r : t) (getLock : bool) : t :=
  let (ts, l) := ThreadSafe_ctor (lock m) getLock in
  let m := set_lock l m in
  let m := set_sws (U64.add (sws m) (sws r)) m in
  let m := set_swcups (U64.add (swcups m) (swcups r)) m in
  let m := set_swrows (U64.add (swrows m) (swrows r)) m in
  let m := set_swskiprows (U64.add (swskiprows m) (swskiprows r)) m in
  let m := set_swskip (U64.add (swskip m) (swskip r)) m in
  let m := set_swsucc (U64.add (swsucc m) (swsucc r)) m in
  let m := set_swfail (U64.add (swfail m) (swfail r)) m in
  let m := set_swbts (U64.add (swbts m) (swbts r)) m in
  let m := set_rshit (U64.add (rshit m) (rshit r)) m in
  set_lock (ThreadSafe_dtor ts (lock m)) m.

(** *** Aggregators behind references

    [merge] takes its argument by reference, so the argument may be the
    receiver itself.  A heap maps addresses to aggregators; every read of
    [r.x] looks the heap up at the time of the statement that reads. *)
Definition heap : Type := nat -> t.

Definition store (h : heap) (p : nat) (v : t) : heap :=
  fun q => if Nat.eqb q p then v else h q.

(** One statement [this->x op= e], as an in-place change of the object at
    [this]. *)
Definition modify (h : heap) (this : nat) (f : t -> t) : heap :=
  store h this (f (h this)).

(** [this->merge(r, getLock)] on the heap, with [r] a reference. *)
Definition merge_at (h : heap) (this r : nat) (getLock : bool) : heap :=
  let (ts, l) := ThreadSafe_ctor (lock (h this)) getLock in
  let h := modify h this (set_lock l) in
  let h := modify h this (fun m => set_sws (U64.add (sws m) (sws (h r))) m) in
  let h := modify h this (fun m => set_swcups (U64.add (swcups m) (swcups (h r))) m) in
  let h := modify h this (fun m => set_swrows (U64.add (swrows m) (swrows (h r))) m) in
  let h := modify h this (fun m => set_swskiprows (U64.add (swskiprows m) (swskiprows (h r))) m) in
  let h := modify h this (fun m => set_swskip (U64.add (swskip m) (swskip (h r))) m) in
  let h := modify h this (fun m => set_swsucc (U64.add (swsucc m) (swsucc (h r))) m) in
  let h := modify h this (fun m => set_swfail (U64.add (swfail m) (swfail (h r))) m) in
  let h := modify h this (fun m => set_swbts (U64.add (swbts m) (swbts (h r))) m) in
  let h := modify h this (fun m => set_rshit (U64.add (rshit m) (rshit (h r))) m) in
  modify h this (fun m => set_lock (ThreadSafe_dtor ts (lock m)) m).

(** [p->reset()] on the heap. *)
Definition reset_at (h : heap) (p : nat) : heap := modify h p reset.

End SwMetrics.

(* ------------------------------------------------------------------ *)
(** ** Output streams *)

Module ostream.

(** A [std::ostream] as the sinks use it: the characters written so far and
    the number of flushes requested.  The stream is taken in its default
    state: it writes at its end, and formats integers in base ten without
    padding or grouping. *)
Record t : Type := mk { chars : string; flushes : nat }.

Definition TAB : string := String (ascii_of_nat 9) EmptyString.

Definition NL : string := String (ascii_of_nat 10) EmptyString.

(** Decimal digits of a [uint64_t], the default formatting of
    [operator<<]. *)
Definition decimal (n : Z) : string :=
  NilEmpty.string_of_uint (N.to_uint (Z.to_N n)).

(** [os << "literal"]: appends, requests no flush. *)
Definition put_str (os : t) (s : string) : t :=
  mk (chars os ++ s) (flushes os).

(** [os << n] for a [uint64_t]. *)
Definition put_u64 (os : t) (n : Z) : t := put_str os (decimal n).

(** [os << std::endl]: a newline and a flush. The sinks avoid it. *)
Definition endl (os : t) : t := mk (chars os ++ NL) (S (flushes os)).

(** Number of occurrences of the character [a] in a text. *)
Fixpoint occurrences (a : ascii) (s : string) : nat :=
  match s with
  | EmptyString => O
  | String b s' =>
      ((if Ascii.eqb a b then 1 else 0) + occurrences a s')%nat
  end.

(** [operator<<] is overloaded on the type of its right operand. *)
Class Insertable (A : Type) : Type := insert : t -> A -> t.

#[global] Instance Insertable_string : Insertable string := put_str.

#[global] Instance Insertable_u64 : Insertable Z := put_u64.

End ostream.

Notation "os << x" := (ostream.insert os x) (at level 50, left associativity).

(* ------------------------------------------------------------------ *)
(** ** SwCounters and SwAction *)

Module SwCounters.

Record t : Type := mk {
  cups : Z; (* cell updates *)
  bts : Z   (* backtracks *)
}.

(** [reset()]: [cups = bts = 0]. *)
Definition reset (c : t) : t :=
  let c := mk (cups c) 0 in
  mk (bts c) (bts c).

End SwCounters.

(** [struct SwAction { };] has no members. *)
Inductive SwAction : Type := mkSwAction.

(* ------------------------------------------------------------------ *)
(** ** Counter sinks *)

(** The abstract class [SwCounterSink]: a protected mutex [lock_] and the
    pure virtual hook [reportCountersImpl]. *)
Class SwCounterSink (T : Type) : Type := {
  counter_lock : T -> MUTEX_T;
  counter_set_lock : MUTEX_T -> T -> T;
  reportCountersImpl : T -> SwCounters.t -> T
}.

(** [SwCounterSink::reportCounters]:
<<
    ThreadSafe(&this->lock_);
    reportCountersImpl(c);
>>
    The guard of the first statement has no name: it is a temporary of that
    expression statement, so its destructor runs at the end of the
    statement, before the second statement starts. *)
Definition reportCounters {T : Type} `{SwCounterSink T}
  (this : T) (c : SwCounters.t) : T :=
  let (ts, l) := ThreadSafe_ctor (counter_lock this) true in
  let this := counter_set_lock l this in
  let this := counter_set_lock (ThreadSafe_dtor ts (counter_lock this)) this in
  reportCountersImpl this c.

Module StreamTabSwCounterSink.

(** The sink holds its inherited mutex and a reference to the caller's
    stream; the stream is carried here as the stream's current state. *)
Record t : Type := mk { lock_ : MUTEX_T; os_ : ostream.t }.

(** [StreamTabSwCounterSink(std::ostream& os)], after the base constructor
    [SwCounterSink() { MUTEX_INIT(lock_); }]. *)
Definition ctor (os : ostream.t) : t := mk MUTEX_INIT os.

Definition set_lock_ (l : MUTEX_T) (this : t) : t := mk l (os_ this).

(** [os_ << c.cups << "\t" << c.bts << "\n";] *)
Definition reportCountersImpl (this : t) (c : SwCounters.t) : t :=
  mk (lock_ this)
     (os_ this << SwCounters.cups c << ostream.TAB
               << SwCounters.bts c << ostream.NL).

(** The four insertions of that statement, one after the other. *)
Definition insertions (c : SwCounters.t) : list (ostream.t -> ostream.t) :=
  [ (fun os => os << SwCounters.cups c);
    (fun os => os << ostream.TAB);
    (fun os => os << SwCounters.bts c);
    (fun os => os << ostream.NL) ].

(** The record of one counters object, as text. *)
Definition record_of (c : SwCounters.t) : string :=
  (ostream.decimal (SwCounters.cups c) ++ ostream.TAB ++
   ostream.decimal (SwCounters.bts c) ++ ostream.NL)%string.

End StreamTabSwCounterSink.

#[global] Instance StreamTabSwCounterSink_sink :
  SwCounterSink StreamTabSwCounterSink.t := {
  counter_lock := StreamTabSwCounterSink.lock_;
  counter_set_lock := StreamTabSwCounterSink.set_lock_;
  reportCountersImpl := StreamTabSwCounterSink.reportCountersImpl
}.

(* ------------------------------------------------------------------ *)
(** ** Action sinks *)

(** The abstract class [SwActionSink]. *)
Class SwActionSink (T : Type) : Type := {
  action_lock : T -> MUTEX_T;
  action_set_lock : MUTEX_T -> T -> T;
  reportActionsImpl : T -> list SwAction -> T
}.

(** [SwActionSink::reportActions]:
<<
    ThreadSafe(&this->lock_);
    reportActionsImpl(as);
>>
    with the same unnamed guard as in [reportCounters]. *)
Definition reportActions {T : Type} `{SwActionSink T}
  (this : T) (acts : list SwAction) : T :=
  let (ts, l) := ThreadSafe_ctor (action_lock this) true in
  let this := action_set_lock l this in
  let this := action_set_lock (ThreadSafe_dtor ts (action_lock this)) this in
  reportActionsImpl this acts.

Module StreamTabSwActionSink.

Record t : Type := mk { lock_ : MUTEX_T; os_ : ostream.t }.

Definition ctor (os : ostream.t) : t := mk MUTEX_INIT os.

Definition set_lock_ (l : MUTEX_T) (this : t) : t := mk l (os_ this).

(** The loop [for(size_t i = 0; i < as.size(); i++) { os_ << "\n"; }],
    entered with index [i] and [n] iterations left. *)
Fixpoint for_loop (n : nat) (i : nat) (os : ostream.t) : ostream.t :=
  match n with
  | O => os
  | S n' => for_loop n' (S i) (os << ostream.NL)
  end.

Definition reportActionsImpl (this : t) (acts : list SwAction) : t :=
  mk (lock_ this) (for_loop (List.length acts) 0 (os_ this)).

(** [n] newline characters. *)
Fixpoint lines (n : nat) : string :=
  match n with
  | O => EmptyString
  | S n' => (ostream.NL ++ lines n')%string
  end.

End StreamTabSwActionSink.

#[global] Instance StreamTabSwActionSink_sink :
  SwActionSink StreamTabSwActionSink.t := {
  action_lock := StreamTabSwActionSink.lock_;
  action_set_lock := StreamTabSwActionSink.set_lock_;
  reportActionsImpl := StreamTabSwActionSink.reportActionsImpl
}.

(* ------------------------------------------------------------------ *)
(** ** A sink that looks at its lock *)

Module LockProbe.

(** A subclass of both sink interfaces whose hooks note, each time they
    run, whether the inherited [lock_] is held at that moment. *)
Record t : Type := mk { lock_ : MUTEX_T; seen : list bool }.

Definition ctor : t := mk MUTEX_INIT [].

Definition set_lock_ (l : MUTEX_T) (this : t) : t := mk l (seen this).

Definition note (this : t) : t :=
  mk (lock_ this) (seen this ++ [held (lock_ this)]).

End LockProbe.

#[global] Instance LockProbe_counter_sink : SwCounterSink LockProbe.t := {
  counter_lock := LockProbe.lock_;
  counter_set_lock := LockProbe.set_lock_;
  reportCountersImpl := fun this _ => LockProbe.note this
}.

#[global] Instance LockProbe_action_sink : SwActionSink LockProbe.t := {
  action_lock := LockProbe.lock_;
  action_set_lock := LockProbe.set_lock_;
  reportActionsImpl := fun this _ => LockProbe.note this
}.

(* ------------------------------------------------------------------ *)
(** ** Threads sharing one sink *)

Module Interleaving.

(** What one thread does next: take the sink's mutex, give it back, or
    perform one insertion into the shared stream.  An insertion is taken as
    indivisible; a finer grain would only allow more interleavings. *)
Inductive atom : Type :=
| Acquire
| Release
| Do (f : ostream.t -> ostream.t).

Definition thread : Type := list atom.

(** The sink's mutex, the stream behind [os_], and what is left to run of
    every thread. *)
Record machine : Type := mk {
  mutex : MUTEX_T;
  shared : ostream.t;
  pool : list thread
}.

Fixpoint lookup (ts : list thread) (tid : nat) : option thread :=
  match ts, tid with
  | [], _ => None
  | t :: _, O => Some t
  | _ :: ts', S n => lookup ts' n
  end.

Fixpoint replace (ts : list thread) (tid : nat) (k : thread) : list thread :=
  match ts, tid with
  | [], _ => []
  | _ :: ts', O => k :: ts'
  | t :: ts', S n => t :: replace ts' n k
  end.

(** Thread [tid] performs its next atom.  [None]: the thread does not exist,
    has finished, or waits for a mutex that is held. *)
Definition step (tid : nat) (m : machine) : option machine :=
  match lookup (pool m) tid with
  | Some (a :: k) =>
      let pool' := replace (pool m) tid k in
      match a with
      | Acquire =>
          match mutex m with
          | Unlocked => Some (mk (MUTEX_LOCK (mutex m)) (shared m) pool')
          | Locked => None
          end
      | Release => Some (mk (MUTEX_UNLOCK (mutex m)) (shared m) pool')
      | Do f => Some (mk (mutex m) (f (shared m)) pool')
      end
  | _ => None
  end.

(** A schedule names the thread that moves at each step. *)
Fixpoint run (sched : list nat) (m : machine) : option machine :=
  match sched with
  | [] => Some m
  | tid :: sched' =>
      match step tid m with
      | Some m' => run sched' m'
      | None => None
      end
  end.

Definition finished (m : machine) : bool :=
  forallb (fun t => match t with [] => true | _ :: _ => false end) (pool m).

(** A thread calling [StreamTabSwCounterSink::reportCounters(c)]: the
    unnamed guard is constructed and destroyed, then the hook performs its
    insertions. *)
Definition reportCounters_thread (c : SwCounters.t) : thread :=
  [Acquire; Release] ++ map Do (StreamTabSwCounterSink.insertions c).

(** A thread calling [StreamTabSwActionSink::reportActions(as)]. *)
Definition reportActions_thread (acts : list SwAction) : thread :=
  [Acquire; Release] ++
  repeat (Do (fun os => os << ostream.NL)) (List.length acts).

(** Follows the spec's words, for comparison with [reportCounters_thread]:
    "acquire an internal lock, delegate to a protected virtual hook, and
    release the lock". *)
Definition reportCounters_spec_thread (c : SwCounters.t) : thread :=
  [Acquire] ++ map Do (StreamTabSwCounterSink.insertions c) ++ [Release].

(** Two reporters on one sink whose stream holds [os]. *)
Definition two_reporters (os : ostream.t) (t1 t2 : thread) : machine :=
  mk MUTEX_INIT os [t1; t2].

End Interleaving.

(* ------------------------------------------------------------------ *)
(** ** Sample objects *)

Module Samples.

Definition metrics_a : SwMetrics.t :=
  SwMetrics.mk 1 2 3 4 5 6 7 8 9 Unlocked.

Definition metrics_max : SwMetrics.t :=
  SwMetrics.mk U64.max_value U64.max_value 0 0 0 0 0 0 U64.max_value Unlocked.

Definition metrics_b : SwMetrics.t :=
  SwMetrics.mk 10 20 30 40 50 60 70 80 90 Locked.

Definition edit1 : AlnRes.Edit := AlnRes.mkEdit 3 AlnRes.EDIT_SUBSTITUTION false.

Definition edit2 : AlnRes.Edit := AlnRes.mkEdit 1 AlnRes.EDIT_INSERTION false.

Definition edit3 : AlnRes.Edit := AlnRes.mkEdit 0 AlnRes.EDIT_COLOR true.

Definition result_a : SwResult.t :=
  SwResult.mk (AlnRes.mk [edit1; edit2] [] [edit3; edit1] (Some 8) (Some 5))
              1 16 4 0 0 1 0 4 2 3.

Definition result_one : SwResult.t :=
  SwResult.mk AlnRes.ctor 1 1 0 0 0 0 0 0 0 0.

Definition counters_12 : SwCounters.t := SwCounters.mk 1 2.

Definition counters_34 : SwCounters.t := SwCounters.mk 3 4.

Definition empty_stream : ostream.t := ostream.mk EmptyString 0.

(** The heap with [metrics_a] at address 0 and [metrics_b] elsewhere. *)
Definition heap_ab : SwMetrics.heap :=
  fun p => match p with O => metrics_a | _ => metrics_b end.

End Samples.

(* ------------------------------------------------------------------ *)
(** ** Sequences of calls on an aggregator *)

Module Calls.

(** One call of a mutating method of [SwMetrics]. *)
Inductive call : Type :=
| CallReset
| CallInit (sws_ swcups_ swrows_ swskiprows_ swskip_ swsucc_ swfail_
            swbts_ rshit_ : Z)
| CallUpdate (r : SwResult.t)
| CallMerge (o : SwMetrics.t) (getLock : bool).

(** The aggregator after the call. *)
Definition perform (m : SwMetrics.t) (c : call) : SwMetrics.t :=
  match c with
  | CallReset => SwMetrics.reset m
  | CallInit a b c d e f g i x => SwMetrics.init m a b c d e f g i x
  | CallUpdate r => SwMetrics.update m r
  | CallMerge o getLock => SwMetrics.merge m o getLock
  end.

(** The arguments of [init] are declared [uint64_t]. *)
Definition well_typed (c : call) : Prop :=
  match c with
  | CallInit a b c d e f g i x =>
      Forall (fun v => U64.in_range v = true) [a; b; c; d; e; f; g; i; x]
  | _ => True
  end.

(** [update] called once for each result of a list, first to last. *)
Definition update_all (m : SwMetrics.t) (rs : list SwResult.t) : SwMetrics.t :=
  fold_left SwMetrics.update rs m.


(** The integer sum, without wrap-around, of the counter [w] over a list of
    results. *)
Definition total (w : SwResult.counter) (rs : list SwResult.t) : Z :=
  fold_right Z.add 0 (map (SwResult.get w) rs).

End Calls.

(* ------------------------------------------------------------------ *)
(** ** Decimal numerals, read back *)

Module DecimalText.

(** The value of a decimal digit character: the characters with codes 48
    to 57 are the digits 0 to 9. *)
Definition digit_value (a : ascii) : option Z :=
  let code := Z.of_nat (nat_of_ascii a) in
  if (48 <=? code) && (code <=? 57) then Some (code - 48) else None.

(** Reading digits left to right, most significant first. *)
Fixpoint value_from (acc : Z) (s : string) : option Z :=
  match s with
  | EmptyString => Some acc
  | String a s' =>
      match digit_value a with
      | Some d => value_from (10 * acc + d) s'
      | None => None
      end
  end.

(** The number a text denotes in base ten; a text that is empty or holds
    anything but digits denotes none. *)
Definition value (s : string) : option Z :=
  match s with
  | EmptyString => None
  | String _ _ => value_from 0 s
  end.

(** No leading zero, except in the numeral "0" itself. *)
Definition canonical (s : string) : bool :=
  match s with
  | EmptyString => false
  | String a EmptyString => true
  | String a (String _ _) => negb (Ascii.eqb a "0"%char)
  end.

(** [s] is the decimal numeral of [n], as a reader of the record sees it:
    digits only, no leading zero, value [n]. *)
Definition numeral (s : string) (n : Z) : Prop :=
  value s = Some n /\ canonical s = true.

End DecimalText.

(* ================================================================== *)
(** * Properties *)

(** ** Arithmetic of [uint64_t] *)

Lemma u64_in_range_iff (x : Z) :
  U64.in_range x = true <-> 0 <= x < U64.modulus.
Proof.
  unfold U64.in_range.
  rewrite andb_true_iff, Z.leb_le, Z.ltb_lt.
  reflexivity.
Qed.

Lemma u64_modulus_pos : 0 < U64.modulus.
Proof. reflexivity. Qed.

Lemma u64_add_in_range (a b : Z) : U64.in_range (U64.add a b) = true.
Proof.
  apply u64_in_range_iff.
  unfold U64.add, U64.wrap.
  apply Z.mod_pos_bound, u64_modulus_pos.
Qed.

Lemma u64_add_zero_r (a : Z) :
  U64.in_range a = true -> U64.add a 0 = a.
Proof.
  intros Ha. apply u64_in_range_iff in Ha.
  unfold U64.add, U64.wrap.
  rewrite Z.add_0_r.
  apply Z.mod_small. exact Ha.
Qed.

Lemma u64_add_exact (a b : Z) :
  U64.in_range a = true -> U64.in_range b = true ->
  a + b <= U64.max_value -> U64.add a b = a + b.
Proof.
  intros Ha Hb Hs.
  apply u64_in_range_iff in Ha. apply u64_in_range_iff in Hb.
  unfold U64.add, U64.wrap, U64.max_value in *.
  apply Z.mod_small. lia.
Qed.

Lemma u64_add_overflow (a b : Z) :
  U64.in_range a = true -> U64.in_range b = true ->
  U64.max_value < a + b -> U64.add a b = a + b - U64.modulus.
Proof.
  intros Ha Hb Hs.
  apply u64_in_range_iff in Ha. apply u64_in_range_iff in Hb.
  unfold U64.add, U64.wrap, U64.max_value in *.
  symmetry. apply Z.mod_unique with (q := 1); lia.
Qed.

(** ** The members of a [SwResult] *)

Lemma SwResult_reset_eq (r : SwResult.t) :
  SwResult.reset r =
  SwResult.mk (AlnRes.reset (SwResult.alres r)) 0 0 0 0 0 0 0 0
              (SwResult.nup r) (SwResult.ndn r).
Proof. destruct r. reflexivity. Qed.

Lemma AlnRes_reverseEdits_involutive (a : AlnRes.t) :
  AlnRes.reverseEdits (AlnRes.reverseEdits a) = a.
Proof.
  destruct a as [n a c s o].
  unfold AlnRes.reverseEdits. simpl.
  rewrite !rev_involutive.
  reflexivity.
Qed.

(** ** The members of a [SwMetrics] *)

Lemma SwMetrics_reset_eq (m : SwMetrics.t) :
  SwMetrics.reset m = SwMetrics.mk 0 0 0 0 0 0 0 0 0 (SwMetrics.lock m).
Proof. destruct m. reflexivity. Qed.

Lemma SwMetrics_update_eq (m : SwMetrics.t) (r : SwResult.t) :
  SwMetrics.update m r =
  SwMetrics.mk
    (U64.add (SwMetrics.sws m) (SwResult.sws r))
    (U64.add (SwMetrics.swcups m) (SwResult.swcups r))
    (U64.add (SwMetrics.swrows m) (SwResult.swrows r))
    (U64.add (SwMetrics.swskiprows m) (SwResult.swskiprows r))
    (U64.add (SwMetrics.swskip m) (SwResult.swskip r))
    (U64.add (SwMetrics.swsucc m) (SwResult.swsucc r))
    (U64.add (SwMetrics.swfail m) (SwResult.swfail r))
    (U64.add (SwMetrics.swbts m) (SwResult.swbts r))
    (SwMetrics.rshit m)
    (SwMetrics.lock m).
Proof. destruct m, r. reflexivity. Qed.

Lemma SwMetrics_merge_eq (m r : SwMetrics.t) (getLock : bool) :
  SwMetrics.merge m r getLock =
  SwMetrics.mk
    (U64.add (SwMetrics.sws m) (SwMetrics.sws r))
    (U64.add (SwMetrics.swcups m) (SwMetrics.swcups r))
    (U64.add (SwMetrics.swrows m) (SwMetrics.swrows r))
    (U64.add (SwMetrics.swskiprows m) (SwMetrics.swskiprows r))
    (U64.add (SwMetrics.swskip m) (SwMetrics.swskip r))
    (U64.add (SwMetrics.swsucc m) (SwMetrics.swsucc r))
    (U64.add (SwMetrics.swfail m) (SwMetrics.swfail r))
    (U64.add (SwMetrics.swbts m) (SwMetrics.swbts r))
    (U64.add (SwMetrics.rshit m) (SwMetrics.rshit r))
    (if getLock then Unlocked else SwMetrics.lock m).
Proof. destruct m, r, getLock; reflexivity. Qed.

Lemma SwMetrics_wf_get (m : SwMetrics.t) :
  SwMetrics.wf m <-> forall c, U64.in_range (SwMetrics.get c m) = true.
Proof.
  split.
  - intros (H1 & H2 & H3 & H4 & H5 & H6 & H7 & H8 & H9) [[] | ]; assumption.
  - intros H. unfold SwMetrics.wf.
    pose proof (fun w => H (SwMetrics.Work w)) as HW.
    repeat split;
      [ apply (HW SwResult.SWS) | apply (HW SwResult.SWCUPS)
      | apply (HW SwResult.SWROWS) | apply (HW SwResult.SWSKIPROWS)
      | apply (HW SwResult.SWSKIP) | apply (HW SwResult.SWSUCC)
      | apply (HW SwResult.SWFAIL) | apply (HW SwResult.SWBTS)
      | apply (H SwMetrics.RSHIT) ].
Qed.

Lemma SwResult_wf_get (r : SwResult.t) :
  SwResult.wf r <-> forall w, U64.in_range (SwResult.get w r) = true.
Proof.
  split.
  - intros (H1 & H2 & H3 & H4 & H5 & H6 & H7 & H8) []; assumption.
  - intros H. unfold SwResult.wf.
    repeat split;
      [ apply (H SwResult.SWS) | apply (H SwResult.SWCUPS)
      | apply (H SwResult.SWROWS) | apply (H SwResult.SWSKIPROWS)
      | apply (H SwResult.SWSKIP) | apply (H SwResult.SWSUCC)
      | apply (H SwResult.SWFAIL) | apply (H SwResult.SWBTS) ].
Qed.

Lemma SwMetrics_get_update_work (m : SwMetrics.t) (r : SwResult.t)
  (w : SwResult.counter) :
  SwMetrics.get (SwMetrics.Work w) (SwMetrics.update m r) =
  U64.add (SwMetrics.get (SwMetrics.Work w) m) (SwResult.get w r).
Proof. rewrite SwMetrics_update_eq. destruct w; reflexivity. Qed.

Lemma SwMetrics_get_merge (m r : SwMetrics.t) (getLock : bool)
  (c : SwMetrics.counter) :
  SwMetrics.get c (SwMetrics.merge m r getLock) =
  U64.add (SwMetrics.get c m) (SwMetrics.get c r).
Proof. rewrite SwMetrics_merge_eq. destruct c as [[] | ]; reflexivity. Qed.

(** The counters stay [uint64_t] values under the other methods, too. *)
Lemma SwMetrics_wf_reset (m : SwMetrics.t) : SwMetrics.wf (SwMetrics.reset m).
Proof.
  rewrite SwMetrics_reset_eq. unfold SwMetrics.wf. simpl.
  repeat split; reflexivity.
Qed.

Lemma SwMetrics_wf_ctor (raw : SwMetrics.t) :
  SwMetrics.wf (SwMetrics.ctor raw) /\
  SwMetrics.lock (SwMetrics.ctor raw) = Unlocked.
Proof.
  unfold SwMetrics.ctor. rewrite SwMetrics_reset_eq.
  unfold SwMetrics.wf. simpl. repeat split; reflexivity.
Qed.

Lemma SwMetrics_wf_init (m : SwMetrics.t) (a b c d e f g i x : Z) :
  Forall (fun v => U64.in_range v = true) [a; b; c; d; e; f; g; i; x] ->
  SwMetrics.wf (SwMetrics.init m a b c d e f g i x).
Proof.
  intros H.
  repeat match goal with
         | H : Forall _ (_ :: _) |- _ => inversion H; clear H; subst
         end.
  unfold SwMetrics.wf. simpl. repeat split; assumption.
Qed.

Lemma SwResult_wf_reset (r : SwResult.t) : SwResult.wf (SwResult.reset r).
Proof.
  rewrite SwResult_reset_eq. unfold SwResult.wf. simpl.
  repeat split; reflexivity.
Qed.

Lemma SwResult_wf_ctor (raw : SwResult.t) : SwResult.wf (SwResult.ctor raw).
Proof. unfold SwResult.wf. simpl. repeat split; reflexivity. Qed.

(** ** Aggregators behind references *)

Lemma SwMetrics_store_same (h : SwMetrics.heap) (p : nat) (v : SwMetrics.t) :
  SwMetrics.store h p v p = v.
Proof. unfold SwMetrics.store. rewrite Nat.eqb_refl. reflexivity. Qed.

Lemma SwMetrics_store_other (h : SwMetrics.heap) (p q : nat) (v : SwMetrics.t) :
  q <> p -> SwMetrics.store h p v q = h q.
Proof.
  intros Hq. unfold SwMetrics.store.
  apply Nat.eqb_neq in Hq. rewrite Hq. reflexivity.
Qed.

Lemma SwMetrics_modify_same (h : SwMetrics.heap) (p : nat)
  (f : SwMetrics.t -> SwMetrics.t) :
  SwMetrics.modify h p f p = f (h p).
Proof. apply SwMetrics_store_same. Qed.

Lemma SwMetrics_modify_other (h : SwMetrics.heap) (p q : nat)
  (f : SwMetrics.t -> SwMetrics.t) :
  q <> p -> SwMetrics.modify h p f q = h q.
Proof. apply SwMetrics_store_other. Qed.

(** Objects other than the receiver are not written by [merge]. *)
Lemma SwMetrics_merge_at_other (h : SwMetrics.heap) (this r q : nat)
  (getLock : bool) :
  q <> this -> SwMetrics.merge_at h this r getLock q = h q.
Proof.
  intros Hq. unfold SwMetrics.merge_at, ThreadSafe_ctor.
  rewrite !SwMetrics_modify_other by exact Hq.
  reflexivity.
Qed.

(** When the argument is another object, the receiver ends as [merge]
    says. *)
Lemma SwMetrics_merge_at_distinct (h : SwMetrics.heap) (this r : nat)
  (getLock : bool) :
  r <> this ->
  SwMetrics.merge_at h this r getLock this =
  SwMetrics.merge (h this) (h r) getLock.
Proof.
  intros Hr. unfold SwMetrics.merge_at, ThreadSafe_ctor.
  repeat (rewrite SwMetrics_modify_same
          || rewrite (@SwMetrics_modify_other _ this r) by exact Hr).
  rewrite SwMetrics_merge_eq.
  destruct (h this), (h r), getLock; reflexivity.
Qed.

(** When the argument is the receiver itself, every statement reads the
    member it is about to write, and the outcome is again what [merge] says
    of the receiver and a copy of it. *)
Lemma SwMetrics_merge_at_self (h : SwMetrics.heap) (this : nat)
  (getLock : bool) :
  SwMetrics.merge_at h this this getLock this =
  SwMetrics.merge (h this) (h this) getLock.
Proof.
  unfold SwMetrics.merge_at, ThreadSafe_ctor.
  repeat rewrite SwMetrics_modify_same.
  rewrite SwMetrics_merge_eq.
  destruct (h this), getLock; reflexivity.
Qed.

Lemma SwMetrics_merge_at_this (h : SwMetrics.heap) (this r : nat)
  (getLock : bool) :
  SwMetrics.merge_at h this r getLock this =
  SwMetrics.merge (h this) (h r) getLock.
Proof.
  destruct (Nat.eq_dec r this) as [-> | Hr].
  - apply SwMetrics_merge_at_self.
  - apply SwMetrics_merge_at_distinct. exact Hr.
Qed.

(* ------------------------------------------------------------------ *)
(** ** SwMetrics::merge and SwMetrics::update *)

(** Claim C1.  For every aggregator [m] (the object at [this]) and every
    aggregator [r] passed by reference (another object, or [m] itself),
    [m.merge(r, getLock)] leaves in each of the nine counters of [m] the
    sum, taken in the integers and reduced modulo [2^64], of that counter of
    [m] and the same counter of [r], both read before the call; no other
    aggregator is written, and the nine counters are all the counter state
    there is. *)
Theorem merge_adds_nine_counters
  (h : SwMetrics.heap) (this r : nat) (getLock : bool) :
  let h' := SwMetrics.merge_at h this r getLock in
  (forall c : SwMetrics.counter,
      SwMetrics.get c (h' this) =
      (SwMetrics.get c (h this) + SwMetrics.get c (h r)) mod 2 ^ 64) /\
  (forall q : nat, q <> this -> h' q = h q).
Proof.
  cbv zeta. split.
  - intros c. rewrite SwMetrics_merge_at_this, SwMetrics_get_merge.
    reflexivity.
  - intros q Hq. apply SwMetrics_merge_at_other. exact Hq.
Qed.

(** Claim C2.  For every aggregator [m] and every result [r], [m.update(r)]
    leaves in each of the eight work counters of [m] the sum, taken in the
    integers and reduced modulo [2^64], of that counter of [m] and the same
    counter of [r]. *)
Theorem update_adds_eight_counters
  (m : SwMetrics.t) (r : SwResult.t) (w : SwResult.counter) :
  SwMetrics.get (SwMetrics.Work w) (SwMetrics.update m r) =
  (SwMetrics.get (SwMetrics.Work w) m + SwResult.get w r) mod 2 ^ 64.
Proof. rewrite SwMetrics_get_update_work. reflexivity. Qed.

(** Claim C9.  [m.update(r)] leaves [rshit] as it was; the other three
    mutators write it: [reset] stores 0, [init] stores its last argument and
    [merge] adds the argument's [rshit]. *)
Theorem update_preserves_rshit (m : SwMetrics.t) (r : SwResult.t) :
  SwMetrics.rshit (SwMetrics.update m r) = SwMetrics.rshit m /\
  SwMetrics.rshit (SwMetrics.reset m) = 0 /\
  (forall a b c d e f g i x : Z,
      SwMetrics.rshit (SwMetrics.init m a b c d e f g i x) = x) /\
  (forall (o : SwMetrics.t) (getLock : bool),
      SwMetrics.rshit (SwMetrics.merge m o getLock) =
      U64.add (SwMetrics.rshit m) (SwMetrics.rshit o)).
Proof.
  split; [| split; [| split]].
  - rewrite SwMetrics_update_eq. reflexivity.
  - rewrite SwMetrics_reset_eq. reflexivity.
  - intros. reflexivity.
  - intros o getLock. rewrite SwMetrics_merge_eq. reflexivity.
Qed.

(** Claim C5.  Let [z] be an aggregator on which [reset()] has just been
    called.  Then [m.merge(z, getLock)] leaves every counter of [m] as it
    was after that [reset] (which touched [m] only if [z] is [m]). *)
Theorem merge_with_reset_is_identity
  (h : SwMetrics.heap) (this z : nat) (getLock : bool)
  (Hwf : SwMetrics.wf (h this)) :
  let h0 := SwMetrics.reset_at h z in
  forall c : SwMetrics.counter,
    SwMetrics.get c (SwMetrics.merge_at h0 this z getLock this) =
    SwMetrics.get c (h0 this).
Proof.
  cbv zeta. intros c.
  rewrite SwMetrics_merge_at_this, SwMetrics_get_merge.
  assert (Hz : SwMetrics.get c (SwMetrics.reset_at h z z) = 0).
  { unfold SwMetrics.reset_at. rewrite SwMetrics_modify_same.
    rewrite SwMetrics_reset_eq. destruct c as [[] | ]; reflexivity. }
  rewrite Hz.
  apply u64_add_zero_r.
  destruct (Nat.eq_dec this z) as [-> | Hne].
  - rewrite Hz. reflexivity.
  - unfold SwMetrics.reset_at. rewrite SwMetrics_modify_other by exact Hne.
    apply SwMetrics_wf_get. exact Hwf.
Qed.

Lemma merge_with_reset_is_identity_witness :
  SwMetrics.wf (Samples.heap_ab 0%nat) /\
  forall c : SwMetrics.counter,
    SwMetrics.get c
      (SwMetrics.merge_at (SwMetrics.reset_at Samples.heap_ab 1%nat)
                          0%nat 1%nat true 0%nat) =
    SwMetrics.get c (SwMetrics.reset_at Samples.heap_ab 1%nat 0%nat).
Proof.
  assert (Hwf : SwMetrics.wf (Samples.heap_ab 0%nat)).
  { unfold SwMetrics.wf. simpl. repeat split; reflexivity. }
  split.
  - exact Hwf.
  - exact (@merge_with_reset_is_identity Samples.heap_ab 0%nat 1%nat true Hwf).
Defined.

(** Claim C10.  The counters are 64-bit unsigned and [update] and [merge]
    add modulo [2^64]: on counters that are [uint64_t] values, each result
    is the sum reduced modulo [2^64], it is again a [uint64_t] value, it is
    the exact sum when that fits, and it is the sum less [2^64], without any
    error, when the sum exceeds [2^64 - 1]. *)
Theorem additions_wrap_mod_2_64
  (m o : SwMetrics.t) (r : SwResult.t) (getLock : bool)
  (Hm : SwMetrics.wf m) (Ho : SwMetrics.wf o) (Hr : SwResult.wf r) :
  (forall w : SwResult.counter,
      let a := SwMetrics.get (SwMetrics.Work w) m in
      let b := SwResult.get w r in
      let s := SwMetrics.get (SwMetrics.Work w) (SwMetrics.update m r) in
      s = (a + b) mod 2 ^ 64 /\
      (a + b <= 2 ^ 64 - 1 -> s = a + b) /\
      (2 ^ 64 - 1 < a + b -> s = a + b - 2 ^ 64)) /\
  (forall c : SwMetrics.counter,
      let a := SwMetrics.get c m in
      let b := SwMetrics.get c o in
      let s := SwMetrics.get c (SwMetrics.merge m o getLock) in
      s = (a + b) mod 2 ^ 64 /\
      (a + b <= 2 ^ 64 - 1 -> s = a + b) /\
      (2 ^ 64 - 1 < a + b -> s = a + b - 2 ^ 64)) /\
  SwMetrics.wf (SwMetrics.update m r) /\
  SwMetrics.wf (SwMetrics.merge m o getLock).
Proof.
  pose proof (proj1 (SwMetrics_wf_get m) Hm) as Gm.
  pose proof (proj1 (SwMetrics_wf_get o) Ho) as Go.
  pose proof (proj1 (SwResult_wf_get r) Hr) as Gr.
  split; [| split; [| split]].
  - intros w. cbv zeta. rewrite SwMetrics_get_update_work.
    split; [reflexivity | split].
    + apply u64_add_exact; auto.
    + apply u64_add_overflow; auto.
  - intros c. cbv zeta. rewrite SwMetrics_get_merge.
    split; [reflexivity | split].
    + apply u64_add_exact; auto.
    + apply u64_add_overflow; auto.
  - apply SwMetrics_wf_get. intros [w | ].
    + rewrite SwMetrics_get_update_work. apply u64_add_in_range.
    + rewrite SwMetrics_update_eq. apply (Gm SwMetrics.RSHIT).
  - apply SwMetrics_wf_get. intros c.
    rewrite SwMetrics_get_merge. apply u64_add_in_range.
Qed.

Lemma additions_wrap_mod_2_64_witness :
  SwMetrics.wf Samples.metrics_max /\
  SwMetrics.wf Samples.metrics_a /\
  SwResult.wf Samples.result_one /\
  SwMetrics.sws (SwMetrics.update Samples.metrics_max Samples.result_one) = 0 /\
  SwMetrics.rshit (SwMetrics.merge Samples.metrics_max Samples.metrics_a true) = 8.
Proof.
  assert (Hm : SwMetrics.wf Samples.metrics_max).
  { unfold SwMetrics.wf. simpl. repeat split; reflexivity. }
  assert (Ho : SwMetrics.wf Samples.metrics_a).
  { unfold SwMetrics.wf. simpl. repeat split; reflexivity. }
  assert (Hr : SwResult.wf Samples.result_one).
  { unfold SwResult.wf. simpl. repeat split; reflexivity. }
  destruct (@additions_wrap_mod_2_64 Samples.metrics_max Samples.metrics_a
              Samples.result_one true Hm Ho Hr) as (Hu & Hg & _ & _).
  split; [exact Hm | split; [exact Ho | split; [exact Hr | split]]].
  - destruct (Hu SwResult.SWS) as (_ & _ & Hover).
    exact (Hover eq_refl).
  - destruct (Hg SwMetrics.RSHIT) as (_ & _ & Hover).
    exact (Hover eq_refl).
Defined.

(* ------------------------------------------------------------------ *)
(** ** SwResult::reset, SwResult::empty and SwResult::reverse *)

(** Claim C3.  For every result [r], after [r.reset()] each of the eight
    work counters reads zero and [r.empty()] is true. *)
Theorem reset_zeroes_counters_and_empties (r : SwResult.t) :
  (forall w : SwResult.counter, SwResult.get w (SwResult.reset r) = 0) /\
  SwResult.empty (SwResult.reset r) = true.
Proof.
  rewrite SwResult_reset_eq. split.
  - intros []; reflexivity.
  - reflexivity.
Qed.

(** Claim C6.  For every result [r], calling [r.reverse()] twice gives back
    [r]: each edit list is in its original order, and nothing else has
    changed. *)
Theorem reverse_twice_is_identity (r : SwResult.t) :
  SwResult.reverse (SwResult.reverse r) = r /\
  AlnRes.ned (SwResult.alres (SwResult.reverse (SwResult.reverse r))) =
    AlnRes.ned (SwResult.alres r) /\
  AlnRes.aed (SwResult.alres (SwResult.reverse (SwResult.reverse r))) =
    AlnRes.aed (SwResult.alres r) /\
  AlnRes.ced (SwResult.alres (SwResult.reverse (SwResult.reverse r))) =
    AlnRes.ced (SwResult.alres r).
Proof.
  assert (H : SwResult.reverse (SwResult.reverse r) = r).
  { destruct r as [a s1 s2 s3 s4 s5 s6 s7 s8 u d].
    unfold SwResult.reverse, SwResult.set_alres. simpl.
    rewrite AlnRes_reverseEdits_involutive. reflexivity. }
  rewrite H. repeat split; reflexivity.
Qed.

(** Claim C8.  [r.reset()] leaves [nup] and [ndn] as they were, while the
    eight counters become zero and the owned alignment result is reset; the
    default constructor, too, leaves in [nup] and [ndn] whatever the storage
    of the new object held. *)
Theorem reset_and_ctor_leave_nup_ndn (r raw : SwResult.t) :
  SwResult.nup (SwResult.reset r) = SwResult.nup r /\
  SwResult.ndn (SwResult.reset r) = SwResult.ndn r /\
  SwResult.reset r =
    SwResult.mk (AlnRes.reset (SwResult.alres r)) 0 0 0 0 0 0 0 0
                (SwResult.nup r) (SwResult.ndn r) /\
  SwResult.nup (SwResult.ctor raw) = SwResult.nup raw /\
  SwResult.ndn (SwResult.ctor raw) = SwResult.ndn raw.
Proof.
  rewrite SwResult_reset_eq. repeat split; reflexivity.
Qed.

(* ------------------------------------------------------------------ *)
(** ** The stream sinks *)

Lemma string_app_assoc (a b c : string) :
  ((a ++ b) ++ c)%string = (a ++ (b ++ c))%string.
Proof.
  induction a as [| x a IH]; simpl.
  - reflexivity.
  - rewrite IH. reflexivity.
Qed.

Lemma string_app_nil_r (a : string) : (a ++ EmptyString)%string = a.
Proof.
  induction a as [| x a IH]; simpl.
  - reflexivity.
  - rewrite IH. reflexivity.
Qed.

Lemma occurrences_app (x : ascii) (a b : string) :
  ostream.occurrences x (a ++ b) =
  (ostream.occurrences x a + ostream.occurrences x b)%nat.
Proof.
  induction a as [| y a IH]; simpl.
  - reflexivity.
  - rewrite IH. apply Nat.add_assoc.
Qed.

(** Decimal digits hold neither a tab nor a newline. *)
Lemma decimal_no_separator (n : Z) :
  ostream.occurrences (ascii_of_nat 9) (ostream.decimal n) = O /\
  ostream.occurrences (ascii_of_nat 10) (ostream.decimal n) = O.
Proof.
  unfold ostream.decimal.
  generalize (N.to_uint (Z.to_N n)) as d.
  induction d as [| d [IH9 IH10] | d [IH9 IH10] | d [IH9 IH10]
                 | d [IH9 IH10] | d [IH9 IH10] | d [IH9 IH10]
                 | d [IH9 IH10] | d [IH9 IH10] | d [IH9 IH10]
                 | d [IH9 IH10]];
    split; simpl; try rewrite IH9; try rewrite IH10; reflexivity.
Qed.

Lemma lines_occurrences (n : nat) :
  ostream.occurrences (ascii_of_nat 10) (StreamTabSwActionSink.lines n) = n.
Proof.
  induction n as [| n IH]; simpl.
  - reflexivity.
  - simpl in IH. rewrite IH. reflexivity.
Qed.

Lemma for_loop_spec (n i : nat) (os : ostream.t) :
  StreamTabSwActionSink.for_loop n i os =
  ostream.mk (ostream.chars os ++ StreamTabSwActionSink.lines n)
             (ostream.flushes os).
Proof.
  revert i os. induction n as [| n IH]; intros i os; simpl.
  - rewrite string_app_nil_r. destruct os. reflexivity.
  - rewrite IH. simpl. rewrite string_app_assoc. reflexivity.
Qed.

Lemma reportCountersImpl_stream
  (this : StreamTabSwCounterSink.t) (c : SwCounters.t) :
  StreamTabSwCounterSink.reportCountersImpl this c =
  StreamTabSwCounterSink.mk
    (StreamTabSwCounterSink.lock_ this)
    (ostream.mk
       (ostream.chars (StreamTabSwCounterSink.os_ this) ++
        StreamTabSwCounterSink.record_of c)
       (ostream.flushes (StreamTabSwCounterSink.os_ this))).
Proof.
  unfold StreamTabSwCounterSink.reportCountersImpl,
    StreamTabSwCounterSink.record_of, ostream.insert,
    ostream.Insertable_u64, ostream.Insertable_string,
    ostream.put_u64, ostream.put_str.
  simpl. rewrite !string_app_assoc. reflexivity.
Qed.

(** The stream after the public [reportCounters] on a stream sink. *)
Lemma reportCounters_stream
  (this : StreamTabSwCounterSink.t) (c : SwCounters.t) :
  StreamTabSwCounterSink.os_ (reportCounters this c) =
  ostream.mk
    (ostream.chars (StreamTabSwCounterSink.os_ this) ++
     StreamTabSwCounterSink.record_of c)
    (ostream.flushes (StreamTabSwCounterSink.os_ this)).
Proof.
  unfold reportCounters, ThreadSafe_ctor. cbn [reportCountersImpl
    counter_lock counter_set_lock StreamTabSwCounterSink_sink].
  rewrite reportCountersImpl_stream. reflexivity.
Qed.

(** Reporting a run of counters objects, one call each. *)
Lemma reportCounters_run
  (cs : list SwCounters.t) (this : StreamTabSwCounterSink.t) :
  StreamTabSwCounterSink.os_ (fold_left reportCounters cs this) =
  ostream.mk
    (ostream.chars (StreamTabSwCounterSink.os_ this) ++
     String.concat EmptyString (map StreamTabSwCounterSink.record_of cs))
    (ostream.flushes (StreamTabSwCounterSink.os_ this)).
Proof.
  revert this. induction cs as [| c cs IH]; intros this.
  - simpl. rewrite string_app_nil_r.
    destruct (StreamTabSwCounterSink.os_ this). reflexivity.
  - cbn [fold_left]. rewrite IH, reportCounters_stream. simpl.
    rewrite string_app_assoc. f_equal. f_equal.
    destruct cs as [| c' cs]; simpl.
    + rewrite string_app_nil_r. reflexivity.
    + reflexivity.
Qed.

(** *** The digits that are written *)

Ltac read_digit :=
  match goal with
  | |- context [DecimalText.digit_value ?a] =>
      let v := eval vm_compute in (DecimalText.digit_value a) in
      change (DecimalText.digit_value a) with v; cbv iota
  end.

Lemma value_from_of_uint_acc (d : Decimal.uint) (acc : positive) :
  DecimalText.value_from (Z.pos acc) (NilEmpty.string_of_uint d) =
  Some (Z.pos (Pos.of_uint_acc d acc)).
Proof.
  revert acc.
  induction d; intros acc;
    cbn [NilEmpty.string_of_uint DecimalText.value_from Pos.of_uint_acc];
    try reflexivity;
    read_digit;
    rewrite <- IHd; f_equal; lia.
Qed.

Lemma value_from_of_uint (d : Decimal.uint) :
  DecimalText.value_from 0 (NilEmpty.string_of_uint d) =
  Some (Z.of_N (Pos.of_uint d)).
Proof.
  induction d;
    cbn [NilEmpty.string_of_uint DecimalText.value_from Pos.of_uint];
    try reflexivity;
    read_digit;
    try (change (10 * 0 + 0) with 0; exact IHd);
    match goal with
    | |- DecimalText.value_from ?k _ = _ =>
        let p := eval cbv in k in
        change k with p
    end;
    rewrite value_from_of_uint_acc; reflexivity.
Qed.

Lemma string_of_uint_nonempty (d : Decimal.uint) :
  d <> Decimal.Nil -> NilEmpty.string_of_uint d <> EmptyString.
Proof. destruct d; simpl; congruence. Qed.

Lemma to_uint_nonnil (n : N) : N.to_uint n <> Decimal.Nil.
Proof.
  destruct n as [| p]; simpl.
  - discriminate.
  - apply DecimalPos.Unsigned.to_uint_nonnil.
Qed.

Lemma to_uint_normal (n : N) : Decimal.unorm (N.to_uint n) = N.to_uint n.
Proof.
  rewrite <- DecimalN.Unsigned.to_of, DecimalN.Unsigned.of_to.
  reflexivity.
Qed.

Lemma canonical_of_normal (d : Decimal.uint) :
  Decimal.unorm d = d ->
  DecimalText.canonical (NilEmpty.string_of_uint d) = true.
Proof.
  intros H. destruct d;
    try (simpl; destruct (NilEmpty.string_of_uint d); reflexivity).
  - discriminate H.
  - rewrite DecimalFacts.unorm_D0 in H. unfold Decimal.unorm in H.
    destruct (Decimal.nzhead d) eqn:E;
      try (exfalso; rewrite <- E in H;
           exact (DecimalFacts.nzhead_nonzero d d H)).
    injection H as <-. reflexivity.
Qed.

(** The formatter writes the decimal numeral of its argument. *)
Lemma decimal_numeral (n : Z) :
  0 <= n -> DecimalText.numeral (ostream.decimal n) n.
Proof.
  intros Hn. unfold DecimalText.numeral, ostream.decimal. split.
  - unfold DecimalText.value.
    destruct (NilEmpty.string_of_uint (N.to_uint (Z.to_N n))) eqn:E.
    + exfalso. revert E. apply string_of_uint_nonempty, to_uint_nonnil.
    + rewrite <- E, value_from_of_uint.
      change (Pos.of_uint (N.to_uint (Z.to_N n)))
        with (N.of_uint (N.to_uint (Z.to_N n))).
      rewrite DecimalN.Unsigned.of_to, Z2N.id by exact Hn.
      reflexivity.
  - apply canonical_of_normal, to_uint_normal.
Qed.

(** Claim C7.  For every counters object [c] (with [uint64_t] members), the
    stream counter sink appends to its stream the decimal numeral of
    [c.cups] (digits only, no leading zero, value [c.cups]), a tab, the
    decimal numeral of [c.bts] and a newline, which is one line with one
    tab, and requests no flush; a run of reports appends one such record per
    object.  For every action list [as], the stream action sink appends
    [as.size()] newlines and nothing else, and requests no flush. *)
Theorem stream_sinks_write_records
  (c : SwCounters.t)
  (Hcups : U64.in_range (SwCounters.cups c) = true)
  (Hbts : U64.in_range (SwCounters.bts c) = true) :
  (exists d1 d2 : string,
      DecimalText.numeral d1 (SwCounters.cups c) /\
      DecimalText.numeral d2 (SwCounters.bts c) /\
      StreamTabSwCounterSink.record_of c =
        (d1 ++ ostream.TAB ++ d2 ++ ostream.NL)%string /\
      (forall this : StreamTabSwCounterSink.t,
          StreamTabSwCounterSink.os_ (reportCounters this c) =
          ostream.mk
            (ostream.chars (StreamTabSwCounterSink.os_ this) ++
             d1 ++ ostream.TAB ++ d2 ++ ostream.NL)
            (ostream.flushes (StreamTabSwCounterSink.os_ this))) /\
      ostream.occurrences (ascii_of_nat 10)
        (d1 ++ ostream.TAB ++ d2 ++ ostream.NL) = 1%nat /\
      ostream.occurrences (ascii_of_nat 9)
        (d1 ++ ostream.TAB ++ d2 ++ ostream.NL) = 1%nat) /\
  (forall (this : StreamTabSwCounterSink.t) (cs : list SwCounters.t),
      StreamTabSwCounterSink.os_ (fold_left reportCounters cs this) =
      ostream.mk
        (ostream.chars (StreamTabSwCounterSink.os_ this) ++
         String.concat EmptyString
           (map StreamTabSwCounterSink.record_of cs))
        (ostream.flushes (StreamTabSwCounterSink.os_ this))) /\
  (forall (this : StreamTabSwActionSink.t) (acts : list SwAction),
      let os := StreamTabSwActionSink.os_ this in
      let os' := StreamTabSwActionSink.os_ (reportActions this acts) in
      ostream.chars os' =
        (ostream.chars os ++
         StreamTabSwActionSink.lines (List.length acts))%string /\
      ostream.occurrences (ascii_of_nat 10) (ostream.chars os') =
        (ostream.occurrences (ascii_of_nat 10) (ostream.chars os) +
         List.length acts)%nat /\
      String.length (ostream.chars os') =
        (String.length (ostream.chars os) + List.length acts)%nat /\
      ostream.flushes os' = ostream.flushes os).
Proof.
  split; [| split].
  - exists (ostream.decimal (SwCounters.cups c)),
           (ostream.decimal (SwCounters.bts c)).
    apply u64_in_range_iff in Hcups. apply u64_in_range_iff in Hbts.
    split; [apply decimal_numeral; lia |].
    split; [apply decimal_numeral; lia |].
    split; [reflexivity |].
    split; [intros this; apply reportCounters_stream |].
    destruct (decimal_no_separator (SwCounters.cups c)) as [H9c H10c].
    destruct (decimal_no_separator (SwCounters.bts c)) as [H9b H10b].
    split.
    + rewrite !occurrences_app, H10c, H10b. reflexivity.
    + rewrite !occurrences_app, H9c, H9b. reflexivity.
  - intros this cs. apply reportCounters_run.
  - intros this acts. cbv zeta.
    unfold reportActions, ThreadSafe_ctor.
    cbn [reportActionsImpl action_lock action_set_lock
         StreamTabSwActionSink_sink].
    unfold StreamTabSwActionSink.reportActionsImpl.
    cbn [StreamTabSwActionSink.os_ StreamTabSwActionSink.set_lock_].
    rewrite for_loop_spec. cbn [ostream.chars ostream.flushes].
    split; [reflexivity | split; [| split; [| reflexivity]]].
    + rewrite occurrences_app, lines_occurrences. reflexivity.
    + generalize (ostream.chars (StreamTabSwActionSink.os_ this)) as s.
      generalize (List.length acts) as n.
      intros n s. induction s as [| x s IH]; simpl.
      * induction n as [| n IHn]; simpl; [reflexivity | now rewrite IHn].
      * rewrite IH. reflexivity.
Qed.

Lemma stream_sinks_write_records_witness :
  U64.in_range 255 = true /\
  U64.in_range 16 = true /\
  exists d1 d2 : string,
    DecimalText.numeral d1 255 /\
    DecimalText.numeral d2 16 /\
    StreamTabSwCounterSink.os_
      (reportCounters (StreamTabSwCounterSink.ctor Samples.empty_stream)
                      (SwCounters.mk 255 16)) =
    ostream.mk (EmptyString ++ d1 ++ ostream.TAB ++ d2 ++ ostream.NL) 0.
Proof.
  assert (H1 : U64.in_range 255 = true) by reflexivity.
  assert (H2 : U64.in_range 16 = true) by reflexivity.
  split; [exact H1 | split; [exact H2 |]].
  destruct (@stream_sinks_write_records (SwCounters.mk 255 16) H1 H2)
    as [(d1 & d2 & N1 & N2 & _ & Hos & _) _].
  exists d1, d2.
  split; [exact N1 | split; [exact N2 |]].
  exact (Hos (StreamTabSwCounterSink.ctor Samples.empty_stream)).
Defined.

(* ------------------------------------------------------------------ *)
(** ** The lock around the report hooks *)

(** The hook of [reportCounters] runs on a sink whose lock has already been
    given back: a hook that looks at [lock_] finds it free. *)
Lemma reportCounters_hook_sees_free_lock
  (p : LockProbe.t) (c : SwCounters.t) :
  LockProbe.seen (reportCounters p c) = LockProbe.seen p ++ [false].
Proof. destruct p. reflexivity. Qed.

Lemma reportActions_hook_sees_free_lock
  (p : LockProbe.t) (acts : list SwAction) :
  LockProbe.seen (reportActions p acts) = LockProbe.seen p ++ [false].
Proof. destruct p. reflexivity. Qed.

(** For any sink, [reportCounters] is the hook applied to the sink with its
    lock locked and unlocked again. *)
Lemma reportCounters_unfold {T : Type} `{SwCounterSink T}
  (this : T) (c : SwCounters.t) :
  reportCounters this c =
  reportCountersImpl
    (counter_set_lock
       (MUTEX_UNLOCK (counter_lock
          (counter_set_lock (MUTEX_LOCK (counter_lock this)) this)))
       (counter_set_lock (MUTEX_LOCK (counter_lock this)) this))
    c.
Proof. reflexivity. Qed.

(** A thread that runs alone performs exactly the call [reportCounters]. *)
Lemma reportCounters_thread_alone (os : ostream.t) (c : SwCounters.t) :
  option_map Interleaving.shared
    (Interleaving.run [0; 0; 0; 0; 0; 0]%nat
       (Interleaving.mk MUTEX_INIT os [Interleaving.reportCounters_thread c])) =
  Some (StreamTabSwCounterSink.os_
          (reportCounters (StreamTabSwCounterSink.ctor os) c)).
Proof. reflexivity. Qed.

Lemma run_newline_insertions (n i : nat) (l : MUTEX_T) (os : ostream.t) :
  Interleaving.run (repeat 0%nat n)
    (Interleaving.mk l os
       [repeat (Interleaving.Do (fun os => os << ostream.NL)) n]) =
  Some (Interleaving.mk l (StreamTabSwActionSink.for_loop n i os) [[]]).
Proof.
  revert i os.
  induction n as [| n IH]; intros i os.
  - reflexivity.
  - cbn [repeat Interleaving.run]. unfold Interleaving.step.
    cbn [Interleaving.pool Interleaving.lookup Interleaving.replace
         Interleaving.mutex Interleaving.shared].
    rewrite (IH (S i)). reflexivity.
Qed.

(** A thread that runs alone performs exactly the call [reportActions]. *)
Lemma reportActions_thread_alone (os : ostream.t) (acts : list SwAction) :
  option_map Interleaving.shared
    (Interleaving.run (0 :: 0 :: repeat 0 (List.length acts))%nat
       (Interleaving.mk MUTEX_INIT os [Interleaving.reportActions_thread acts])) =
  Some (StreamTabSwActionSink.os_
          (reportActions (StreamTabSwActionSink.ctor os) acts)).
Proof.
  unfold Interleaving.reportActions_thread.
  cbn [app Interleaving.run]. unfold Interleaving.step.
  cbn [Interleaving.pool Interleaving.lookup Interleaving.replace
       Interleaving.mutex Interleaving.shared MUTEX_INIT MUTEX_LOCK
       MUTEX_UNLOCK].
  rewrite (run_newline_insertions (List.length acts) 0). reflexivity.
Qed.

Ltac schedule_step sched H Hfin :=
  destruct sched as [| [| [| ?tid]] sched];
  cbn in H;
  [ injection H as <-; try (cbn in Hfin; discriminate Hfin)
  | try discriminate H
  | try discriminate H
  | try discriminate H ].

(** Under the discipline the spec describes, two concurrent reporters leave
    two whole records, in one order or the other, whatever the schedule. *)
Lemma spec_threads_never_interleave
  (os : ostream.t) (c1 c2 : SwCounters.t)
  (sched : list nat) (m : Interleaving.machine) :
  Interleaving.run sched
    (Interleaving.two_reporters os
       (Interleaving.reportCounters_spec_thread c1)
       (Interleaving.reportCounters_spec_thread c2)) = Some m ->
  Interleaving.finished m = true ->
  ostream.chars (Interleaving.shared m) =
    (ostream.chars os ++ StreamTabSwCounterSink.record_of c1 ++
     StreamTabSwCounterSink.record_of c2)%string \/
  ostream.chars (Interleaving.shared m) =
    (ostream.chars os ++ StreamTabSwCounterSink.record_of c2 ++
     StreamTabSwCounterSink.record_of c1)%string.
Proof.
  intros H Hfin.
  unfold Interleaving.two_reporters, Interleaving.reportCounters_spec_thread,
    StreamTabSwCounterSink.insertions in H.
  do 13 (schedule_step sched H Hfin).
  - left. cbn. unfold StreamTabSwCounterSink.record_of.
    rewrite !string_app_assoc. reflexivity.
  - right. cbn. unfold StreamTabSwCounterSink.record_of.
    rewrite !string_app_assoc. reflexivity.
Qed.

(** The discipline of the spec can run to completion. *)
Lemma spec_threads_complete :
  option_map Interleaving.finished
    (Interleaving.run [0; 0; 0; 0; 0; 0; 1; 1; 1; 1; 1; 1]%nat
       (Interleaving.two_reporters Samples.empty_stream
          (Interleaving.reportCounters_spec_thread Samples.counters_12)
          (Interleaving.reportCounters_spec_thread Samples.counters_34))) =
  Some true.
Proof. reflexivity. Qed.

(** Claim C4, which the code does not meet.  The claim: the report methods
    hold the sink's lock while the hook runs, so that concurrent reporters
    never interleave partial records.  The code: the guard is an unnamed
    temporary, so the lock is released before the hook is called.  The
    hooks of the two stream sinks are entered with [lock_] free; a hook
    that looks at the lock finds it free, in [reportCounters] and in
    [reportActions]; and two threads reporting the counters (1,2) and (3,4)
    to one stream sink can leave the text "1<TAB>3<TAB>4<NL>2<NL>", which is
    neither order of the two whole records. *)
Theorem report_hooks_run_unlocked :
  (forall (this : StreamTabSwCounterSink.t) (c : SwCounters.t),
      reportCounters this c =
      StreamTabSwCounterSink.reportCountersImpl
        (StreamTabSwCounterSink.mk Unlocked (StreamTabSwCounterSink.os_ this))
        c) /\
  (forall (this : StreamTabSwActionSink.t) (acts : list SwAction),
      reportActions this acts =
      StreamTabSwActionSink.reportActionsImpl
        (StreamTabSwActionSink.mk Unlocked (StreamTabSwActionSink.os_ this))
        acts) /\
  (forall (p : LockProbe.t) (c : SwCounters.t),
      LockProbe.seen (reportCounters p c) = LockProbe.seen p ++ [false]) /\
  (forall (p : LockProbe.t) (acts : list SwAction),
      LockProbe.seen (reportActions p acts) = LockProbe.seen p ++ [false]) /\
  (let r12 := StreamTabSwCounterSink.record_of Samples.counters_12 in
   let r34 := StreamTabSwCounterSink.record_of Samples.counters_34 in
   let torn :=
     ("1" ++ ostream.TAB ++ "3" ++ ostream.TAB ++ "4" ++ ostream.NL ++
      "2" ++ ostream.NL)%string in
   Interleaving.run [0; 0; 0; 0; 1; 1; 1; 1; 1; 1; 0; 0]%nat
     (Interleaving.two_reporters Samples.empty_stream
        (Interleaving.reportCounters_thread Samples.counters_12)
        (Interleaving.reportCounters_thread Samples.counters_34)) =
   Some (Interleaving.mk Unlocked (ostream.mk torn 0) [[]; []]) /\
   torn <> (r12 ++ r34)%string /\
   torn <> (r34 ++ r12)%string).
Proof.
  split; [| split; [| split; [| split]]].
  - intros this c. reflexivity.
  - intros this acts. reflexivity.
  - apply reportCounters_hook_sees_free_lock.
  - apply reportActions_hook_sees_free_lock.
  - cbv zeta. split; [| split].
    + reflexivity.
    + vm_compute. discriminate.
    + vm_compute. discriminate.
Qed.

(* ------------------------------------------------------------------ *)
(** ** Worked examples *)

(** Merging an aggregator into itself doubles every counter. *)
Example merge_into_itself :
  SwMetrics.merge_at Samples.heap_ab 0 0 true 0%nat =
  SwMetrics.mk 2 4 6 8 10 12 14 16 18 Unlocked.
Proof. reflexivity. Qed.

Example merge_two_objects :
  SwMetrics.merge_at Samples.heap_ab 0 1 false 0%nat =
  SwMetrics.mk 11 22 33 44 55 66 77 88 99 Unlocked.
Proof. reflexivity. Qed.

Example update_at_the_top :
  SwMetrics.update Samples.metrics_max Samples.result_one =
  SwMetrics.mk 0 0 0 0 0 0 0 0 U64.max_value Unlocked.
Proof. reflexivity. Qed.

Example reset_result :
  SwResult.reset Samples.result_a =
  SwResult.mk (AlnRes.mk [] [] [] None None) 0 0 0 0 0 0 0 0 2 3.
Proof. reflexivity. Qed.

Example installed_result_not_empty :
  SwResult.empty Samples.result_a = false.
Proof. reflexivity. Qed.

Example reverse_result :
  SwResult.alres (SwResult.reverse Samples.result_a) =
  AlnRes.mk [Samples.edit2; Samples.edit1] []
            [Samples.edit1; Samples.edit3] (Some 8) (Some 5).
Proof. reflexivity. Qed.

Example counters_reset :
  SwCounters.reset Samples.counters_34 = SwCounters.mk 0 0.
Proof. reflexivity. Qed.

Example ctor_of_metrics :
  SwMetrics.ctor Samples.metrics_b =
  SwMetrics.mk 0 0 0 0 0 0 0 0 0 Unlocked.
Proof. reflexivity. Qed.

Example report_two_counters :
  ostream.chars
    (StreamTabSwCounterSink.os_
       (fold_left reportCounters
          [Samples.counters_12; Samples.counters_34]
          (StreamTabSwCounterSink.ctor Samples.empty_stream))) =
  ("1" ++ ostream.TAB ++ "2" ++ ostream.NL ++
   "3" ++ ostream.TAB ++ "4" ++ ostream.NL)%string.
Proof. reflexivity. Qed.

Example report_255_16 :
  ostream.chars
    (StreamTabSwCounterSink.os_
       (reportCounters (StreamTabSwCounterSink.ctor Samples.empty_stream)
                       (SwCounters.mk 255 16))) =
  ("255" ++ ostream.TAB ++ "16" ++ ostream.NL)%string.
Proof. reflexivity. Qed.

Example numeral_needs_digits :
  DecimalText.value EmptyString = None /\
  DecimalText.value "12a" = None /\
  DecimalText.value "0255" = Some 255 /\
  DecimalText.canonical "0255" = false /\
  DecimalText.value "18446744073709551615" = Some U64.max_value.
Proof. repeat split; reflexivity. Qed.

Example report_three_actions :
  StreamTabSwActionSink.os_
    (reportActions (StreamTabSwActionSink.ctor Samples.empty_stream)
       [mkSwAction; mkSwAction; mkSwAction]) =
  ostream.mk (ostream.NL ++ ostream.NL ++ ostream.NL) 0.
Proof. reflexivity. Qed.

Example endl_would_flush :
  ostream.endl Samples.empty_stream = ostream.mk ostream.NL 1.
Proof. reflexivity. Qed.

(* ================================================================== *)
(** * Further properties of the header *)

(** ** Algebra of the wrapped sum *)

Lemma u64_modulus_nonzero : U64.modulus <> 0.
Proof. discriminate. Qed.

Lemma u64_add_comm (a b : Z) : U64.add a b = U64.add b a.
Proof. unfold U64.add. rewrite Z.add_comm. reflexivity. Qed.

Lemma u64_add_assoc (a b c : Z) :
  U64.add (U64.add a b) c = U64.add a (U64.add b c).
Proof.
  unfold U64.add, U64.wrap.
  rewrite Z.add_mod_idemp_l by apply u64_modulus_nonzero.
  rewrite Z.add_mod_idemp_r by apply u64_modulus_nonzero.
  rewrite Z.add_assoc. reflexivity.
Qed.

Lemma u64_add_swap (a b c : Z) :
  U64.add (U64.add a b) c = U64.add (U64.add a c) b.
Proof.
  rewrite !u64_add_assoc. f_equal. apply u64_add_comm.
Qed.

Lemma u64_add_wrap_r (a b : Z) : U64.add a (U64.wrap b) = U64.add a b.
Proof.
  unfold U64.add, U64.wrap.
  apply Z.add_mod_idemp_r, u64_modulus_nonzero.
Qed.

Lemma u64_wrap_small (a : Z) : U64.in_range a = true -> U64.wrap a = a.
Proof.
  intros Ha. apply u64_in_range_iff in Ha.
  apply Z.mod_small. exact Ha.
Qed.

Lemma SwMetrics_wf_update (m : SwMetrics.t) (r : SwResult.t) :
  SwMetrics.wf m -> SwMetrics.wf (SwMetrics.update m r).
Proof.
  intros Hm. apply SwMetrics_wf_get. intros [w | ].
  - rewrite SwMetrics_get_update_work. apply u64_add_in_range.
  - rewrite SwMetrics_update_eq.
    apply (proj1 (SwMetrics_wf_get m) Hm SwMetrics.RSHIT).
Qed.

Lemma SwMetrics_wf_merge (m o : SwMetrics.t) (getLock : bool) :
  SwMetrics.wf (SwMetrics.merge m o getLock).
Proof.
  apply SwMetrics_wf_get. intros c.
  rewrite SwMetrics_get_merge. apply u64_add_in_range.
Qed.

(* ------------------------------------------------------------------ *)
(** ** How merges and updates compose *)



Lemma SwMetrics_update_swap (m : SwMetrics.t) (r1 r2 : SwResult.t) :
  SwMetrics.update (SwMetrics.update m r1) r2 =
  SwMetrics.update (SwMetrics.update m r2) r1.
Proof.
  rewrite !SwMetrics_update_eq. cbn [SwMetrics.sws SwMetrics.swcups
    SwMetrics.swrows SwMetrics.swskiprows SwMetrics.swskip SwMetrics.swsucc
    SwMetrics.swfail SwMetrics.swbts SwMetrics.rshit SwMetrics.lock].
  f_equal; apply u64_add_swap.
Qed.

(** The order in which results are fed to [update] does not matter: two
    lists holding the same results in different orders leave the same
    aggregator. *)
Theorem update_order_irrelevant
  (rs rs' : list SwResult.t) (Hperm : Permutation rs rs') (m : SwMetrics.t) :
  Calls.update_all m rs = Calls.update_all m rs'.
Proof.
  unfold Calls.update_all. revert m.
  induction Hperm as [| r l l' _ IH | r1 r2 l | l l' l'' _ IH1 _ IH2];
    intros m; cbn [fold_left].
  - reflexivity.
  - apply IH.
  - rewrite SwMetrics_update_swap. reflexivity.
  - rewrite IH1. apply IH2.
Qed.

Lemma update_order_irrelevant_witness :
  Permutation [Samples.result_a; Samples.result_one]
              [Samples.result_one; Samples.result_a] /\
  Calls.update_all Samples.metrics_max [Samples.result_a; Samples.result_one] =
  Calls.update_all Samples.metrics_max [Samples.result_one; Samples.result_a].
Proof.
  assert (Hp : Permutation [Samples.result_a; Samples.result_one]
                           [Samples.result_one; Samples.result_a])
    by apply perm_swap.
  split.
  - exact Hp.
  - exact (@update_order_irrelevant _ _ Hp Samples.metrics_max).
Defined.



(* ------------------------------------------------------------------ *)
(** ** Running totals *)

Lemma total_cons (w : SwResult.counter) (r : SwResult.t)
  (rs : list SwResult.t) :
  Calls.total w (r :: rs) = SwResult.get w r + Calls.total w rs.
Proof. reflexivity. Qed.

Lemma update_all_cons (m : SwMetrics.t) (r : SwResult.t)
  (rs : list SwResult.t) :
  Calls.update_all m (r :: rs) = Calls.update_all (SwMetrics.update m r) rs.
Proof. reflexivity. Qed.

Lemma update_all_get_work_cons (rs : list SwResult.t) (m : SwMetrics.t)
  (r : SwResult.t) (w : SwResult.counter) :
  SwMetrics.get (SwMetrics.Work w) (Calls.update_all m (r :: rs)) =
  U64.add (SwMetrics.get (SwMetrics.Work w) m) (Calls.total w (r :: rs)).
Proof.
  revert m r.
  induction rs as [| r' rs IH]; intros m r.
  - rewrite update_all_cons, total_cons.
    change (Calls.update_all (SwMetrics.update m r) [])
      with (SwMetrics.update m r).
    change (Calls.total w []) with 0.
    rewrite SwMetrics_get_update_work, Z.add_0_r. reflexivity.
  - rewrite update_all_cons, IH, SwMetrics_get_update_work.
    rewrite (total_cons w r (r' :: rs)).
    rewrite u64_add_assoc.
    rewrite <- (u64_add_wrap_r (SwMetrics.get (SwMetrics.Work w) m)
                  (SwResult.get w r + Calls.total w (r' :: rs))).
    reflexivity.
Qed.

Lemma update_all_frame (rs : list SwResult.t) (m : SwMetrics.t) :
  SwMetrics.rshit (Calls.update_all m rs) = SwMetrics.rshit m /\
  SwMetrics.lock (Calls.update_all m rs) = SwMetrics.lock m.
Proof.
  revert m.
  induction rs as [| r rs IH]; intros m.
  - split; reflexivity.
  - rewrite update_all_cons.
    destruct (IH (SwMetrics.update m r)) as [H1 H2].
    rewrite H1, H2, SwMetrics_update_eq. split; reflexivity.
Qed.

Lemma update_all_get_work (m : SwMetrics.t) (rs : list SwResult.t)
  (w : SwResult.counter) :
  U64.in_range (SwMetrics.get (SwMetrics.Work w) m) = true ->
  SwMetrics.get (SwMetrics.Work w) (Calls.update_all m rs) =
  U64.add (SwMetrics.get (SwMetrics.Work w) m) (Calls.total w rs).
Proof.
  intros Hm. destruct rs as [| r rs].
  - change (Calls.update_all m []) with m.
    change (Calls.total w []) with 0.
    symmetry. apply u64_add_zero_r. exact Hm.
  - apply update_all_get_work_cons.
Qed.

(** After any run of [update] calls on an aggregator whose counters are
    [uint64_t] values, each work counter holds its old value plus the true
    sum of the results' counters, reduced modulo [2^64] once: wraps in the
    middle of the run leave no trace.  [rshit] and the lock are as before. *)
Theorem update_all_closed_form
  (m : SwMetrics.t) (rs : list SwResult.t) (Hm : SwMetrics.wf m) :
  (forall w : SwResult.counter,
      SwMetrics.get (SwMetrics.Work w) (Calls.update_all m rs) =
      (SwMetrics.get (SwMetrics.Work w) m + Calls.total w rs) mod 2 ^ 64) /\
  SwMetrics.rshit (Calls.update_all m rs) = SwMetrics.rshit m /\
  SwMetrics.lock (Calls.update_all m rs) = SwMetrics.lock m.
Proof.
  split; [| apply update_all_frame].
  intros w. apply update_all_get_work.
  apply SwMetrics_wf_get. exact Hm.
Qed.

Lemma update_all_closed_form_witness :
  SwMetrics.wf Samples.metrics_max /\
  SwMetrics.sws
    (Calls.update_all Samples.metrics_max
       [Samples.result_one; Samples.result_a; Samples.result_one]) = 2.
Proof.
  assert (Hm : SwMetrics.wf Samples.metrics_max).
  { unfold SwMetrics.wf. simpl. repeat split; reflexivity. }
  split.
  - exact Hm.
  - exact (proj1 (@update_all_closed_form Samples.metrics_max
             [Samples.result_one; Samples.result_a; Samples.result_one] Hm)
             SwResult.SWS).
Defined.

Lemma SwMetrics_get_ctor (raw : SwMetrics.t) (c : SwMetrics.counter) :
  SwMetrics.get c (SwMetrics.ctor raw) = 0.
Proof.
  unfold SwMetrics.ctor. rewrite SwMetrics_reset_eq.
  destruct c as [[] | ]; reflexivity.
Qed.

(** The usage the header recommends: a thread keeps a private aggregator,
    freshly constructed, feeds its results to it with [update], and merges
    it into the shared aggregator.  The shared counters end as if every
    result had been fed to the shared aggregator directly. *)
Theorem local_totals_then_merge
  (shared raw : SwMetrics.t) (rs : list SwResult.t) (getLock : bool)
  (Hshared : SwMetrics.wf shared) (c : SwMetrics.counter) :
  SwMetrics.get c
    (SwMetrics.merge shared (Calls.update_all (SwMetrics.ctor raw) rs) getLock) =
  SwMetrics.get c (Calls.update_all shared rs).
Proof.
  rewrite SwMetrics_get_merge.
  pose proof (proj1 (SwMetrics_wf_get shared) Hshared) as G.
  destruct c as [w | ].
  - rewrite (@update_all_get_work (SwMetrics.ctor raw) rs w).
    + rewrite (@update_all_get_work shared rs w) by apply G.
      rewrite SwMetrics_get_ctor.
      unfold U64.add at 2. rewrite Z.add_0_l.
      apply u64_add_wrap_r.
    + rewrite SwMetrics_get_ctor. reflexivity.
  - change (SwMetrics.get SwMetrics.RSHIT ?x) with (SwMetrics.rshit x).
    rewrite (proj1 (update_all_frame rs (SwMetrics.ctor raw))).
    rewrite (proj1 (update_all_frame rs shared)).
    change (SwMetrics.rshit (SwMetrics.ctor raw))
      with (SwMetrics.get SwMetrics.RSHIT (SwMetrics.ctor raw)).
    rewrite SwMetrics_get_ctor.
    apply u64_add_zero_r. apply (G SwMetrics.RSHIT).
Qed.

Lemma local_totals_then_merge_witness :
  SwMetrics.wf Samples.metrics_max /\
  SwMetrics.get (SwMetrics.Work SwResult.SWCUPS)
    (SwMetrics.merge Samples.metrics_max
       (Calls.update_all (SwMetrics.ctor Samples.metrics_b)
          [Samples.result_a; Samples.result_one]) true) =
  SwMetrics.get (SwMetrics.Work SwResult.SWCUPS)
    (Calls.update_all Samples.metrics_max
       [Samples.result_a; Samples.result_one]).
Proof.
  assert (Hm : SwMetrics.wf Samples.metrics_max).
  { unfold SwMetrics.wf. simpl. repeat split; reflexivity. }
  split.
  - exact Hm.
  - exact (@local_totals_then_merge Samples.metrics_max Samples.metrics_b
             [Samples.result_a; Samples.result_one] true Hm
             (SwMetrics.Work SwResult.SWCUPS)).
Defined.

(** What holds no work adds nothing: feeding a freshly constructed or a
    reset result to [update] gives back the aggregator unchanged, and
    merging with a freshly constructed aggregator, on either side, keeps the
    nine counters of the other one. *)
Theorem empty_contributions_add_nothing
  (m : SwMetrics.t) (Hm : SwMetrics.wf m) :
  (forall raw : SwResult.t, SwMetrics.update m (SwResult.ctor raw) = m) /\
  (forall r : SwResult.t, SwMetrics.update m (SwResult.reset r) = m) /\
  (forall (raw : SwMetrics.t) (getLock : bool) (c : SwMetrics.counter),
      SwMetrics.get c (SwMetrics.merge m (SwMetrics.ctor raw) getLock) =
      SwMetrics.get c m) /\
  (forall (raw : SwMetrics.t) (getLock : bool) (c : SwMetrics.counter),
      SwMetrics.get c (SwMetrics.merge (SwMetrics.ctor raw) m getLock) =
      SwMetrics.get c m).
Proof.
  pose proof (proj1 (SwMetrics_wf_get m) Hm) as G.
  assert (Hupd : forall r : SwResult.t,
             (forall w, SwResult.get w r = 0) -> SwMetrics.update m r = m).
  { intros r Hr. rewrite SwMetrics_update_eq.
    rewrite (Hr SwResult.SWS : SwResult.sws r = 0).
    rewrite (Hr SwResult.SWCUPS : SwResult.swcups r = 0).
    rewrite (Hr SwResult.SWROWS : SwResult.swrows r = 0).
    rewrite (Hr SwResult.SWSKIPROWS : SwResult.swskiprows r = 0).
    rewrite (Hr SwResult.SWSKIP : SwResult.swskip r = 0).
    rewrite (Hr SwResult.SWSUCC : SwResult.swsucc r = 0).
    rewrite (Hr SwResult.SWFAIL : SwResult.swfail r = 0).
    rewrite (Hr SwResult.SWBTS : SwResult.swbts r = 0).
    destruct Hm as (H1 & H2 & H3 & H4 & H5 & H6 & H7 & H8 & _).
    rewrite !u64_add_zero_r by assumption.
    destruct m. reflexivity. }
  split; [| split; [| split]].
  - intros raw. apply Hupd. intros []; reflexivity.
  - intros r. apply Hupd. rewrite SwResult_reset_eq. intros []; reflexivity.
  - intros raw getLock c.
    rewrite SwMetrics_get_merge, SwMetrics_get_ctor.
    apply u64_add_zero_r, G.
  - intros raw getLock c.
    rewrite SwMetrics_get_merge, SwMetrics_get_ctor, u64_add_comm.
    apply u64_add_zero_r, G.
Qed.

Lemma empty_contributions_add_nothing_witness :
  SwMetrics.wf Samples.metrics_a /\
  SwMetrics.update Samples.metrics_a (SwResult.reset Samples.result_a) =
  Samples.metrics_a.
Proof.
  assert (Hm : SwMetrics.wf Samples.metrics_a).
  { unfold SwMetrics.wf. simpl. repeat split; reflexivity. }
  split.
  - exact Hm.
  - exact (proj1 (proj2 (@empty_contributions_add_nothing Samples.metrics_a Hm))
             Samples.result_a).
Defined.

(* ------------------------------------------------------------------ *)
(** ** SwMetrics::init, the lock, and the range of the counters *)

(** [init] restores a snapshot: called with the nine counters read from an
    aggregator [m], it makes the receiver's counters those of [m], whatever
    they were, and keeps the receiver's own lock; on [m] itself it changes
    nothing.  A second [init] forgets the first. *)
Theorem init_restores_snapshot (m m' : SwMetrics.t) :
  SwMetrics.init m'
    (SwMetrics.sws m) (SwMetrics.swcups m) (SwMetrics.swrows m)
    (SwMetrics.swskiprows m) (SwMetrics.swskip m) (SwMetrics.swsucc m)
    (SwMetrics.swfail m) (SwMetrics.swbts m) (SwMetrics.rshit m) =
  SwMetrics.set_lock (SwMetrics.lock m') m /\
  SwMetrics.init m
    (SwMetrics.sws m) (SwMetrics.swcups m) (SwMetrics.swrows m)
    (SwMetrics.swskiprows m) (SwMetrics.swskip m) (SwMetrics.swsucc m)
    (SwMetrics.swfail m) (SwMetrics.swbts m) (SwMetrics.rshit m) = m /\
  (forall a b c d e f g i x a' b' c' d' e' f' g' i' x' : Z,
      SwMetrics.init (SwMetrics.init m a b c d e f g i x)
                     a' b' c' d' e' f' g' i' x' =
      SwMetrics.init m a' b' c' d' e' f' g' i' x').
Proof.
  split; [| split].
  - destruct m, m'. reflexivity.
  - destruct m. reflexivity.
  - intros. destruct m. reflexivity.
Qed.

(** Only the guard of [merge] touches the lock: [update], [reset] and
    [init] leave it as they find it, and so does [merge] when [getLock] is
    false; with [getLock] true, [merge] returns with the lock released. *)
Theorem lock_touched_only_by_guard
  (m o : SwMetrics.t) (r : SwResult.t) (a b c d e f g i x : Z) :
  SwMetrics.lock (SwMetrics.update m r) = SwMetrics.lock m /\
  SwMetrics.lock (SwMetrics.reset m) = SwMetrics.lock m /\
  SwMetrics.lock (SwMetrics.init m a b c d e f g i x) = SwMetrics.lock m /\
  SwMetrics.lock (SwMetrics.merge m o false) = SwMetrics.lock m /\
  held (SwMetrics.lock (SwMetrics.merge m o true)) = false.
Proof.
  rewrite SwMetrics_update_eq, SwMetrics_reset_eq, !SwMetrics_merge_eq.
  destruct m. repeat split; reflexivity.
Qed.

Lemma Calls_perform_wf (m : SwMetrics.t) (c : Calls.call) :
  SwMetrics.wf m -> Calls.well_typed c -> SwMetrics.wf (Calls.perform m c).
Proof.
  intros Hm Hc. destruct c as [| a b c d e f g i x | r | o getLock].
  - apply SwMetrics_wf_reset.
  - apply SwMetrics_wf_init. exact Hc.
  - apply SwMetrics_wf_update. exact Hm.
  - apply SwMetrics_wf_merge.
Qed.

(** Starting from the constructor, whatever the storage held, and through
    any sequence of [reset], [init], [update] and [merge] calls, every
    counter of the aggregator stays within [0 .. 2^64 - 1]; the only
    condition is that [init] is given [uint64_t] arguments. *)
Theorem counters_stay_in_range
  (raw : SwMetrics.t) (cs : list Calls.call)
  (Hcs : Forall Calls.well_typed cs) :
  SwMetrics.wf (fold_left Calls.perform cs (SwMetrics.ctor raw)).
Proof.
  assert (H0 : SwMetrics.wf (SwMetrics.ctor raw))
    by apply SwMetrics_wf_ctor.
  revert H0. generalize (SwMetrics.ctor raw) as m.
  induction Hcs as [| c cs Hc _ IH]; intros m Hm.
  - exact Hm.
  - change (fold_left Calls.perform (c :: cs) m)
      with (fold_left Calls.perform cs (Calls.perform m c)).
    apply IH. apply Calls_perform_wf; assumption.
Qed.

Lemma counters_stay_in_range_witness :
  Forall Calls.well_typed
    [Calls.CallUpdate Samples.result_a;
     Calls.CallInit U64.max_value 0 0 0 0 0 0 0 7;
     Calls.CallMerge Samples.metrics_max true;
     Calls.CallUpdate Samples.result_one;
     Calls.CallReset] /\
  SwMetrics.wf
    (fold_left Calls.perform
       [Calls.CallUpdate Samples.result_a;
        Calls.CallInit U64.max_value 0 0 0 0 0 0 0 7;
        Calls.CallMerge Samples.metrics_max true;
        Calls.CallUpdate Samples.result_one;
        Calls.CallReset]
       (SwMetrics.ctor Samples.metrics_b)).
Proof.
  assert (H : Forall Calls.well_typed
    [Calls.CallUpdate Samples.result_a;
     Calls.CallInit U64.max_value 0 0 0 0 0 0 0 7;
     Calls.CallMerge Samples.metrics_max true;
     Calls.CallUpdate Samples.result_one;
     Calls.CallReset]).
  { repeat constructor. }
  split.
  - exact H.
  - exact (@counters_stay_in_range Samples.metrics_b _ H).
Defined.

(** A wrap can be seen afterwards: on [uint64_t] counters, the total after
    [update] (or [merge]) is smaller than the total before exactly when the
    addition went past [2^64 - 1], and at least the total before exactly
    when it did not. *)
Theorem wrap_shows_as_decrease
  (m o : SwMetrics.t) (r : SwResult.t) (getLock : bool)
  (Hm : SwMetrics.wf m) (Ho : SwMetrics.wf o) (Hr : SwResult.wf r) :
  (forall w : SwResult.counter,
      let a := SwMetrics.get (SwMetrics.Work w) m in
      let s := SwMetrics.get (SwMetrics.Work w) (SwMetrics.update m r) in
      (s < a <-> 2 ^ 64 - 1 < a + SwResult.get w r) /\
      (a <= s <-> a + SwResult.get w r <= 2 ^ 64 - 1)) /\
  (forall c : SwMetrics.counter,
      let a := SwMetrics.get c m in
      let s := SwMetrics.get c (SwMetrics.merge m o getLock) in
      (s < a <-> 2 ^ 64 - 1 < a + SwMetrics.get c o) /\
      (a <= s <-> a + SwMetrics.get c o <= 2 ^ 64 - 1)).
Proof.
  pose proof (proj1 (SwMetrics_wf_get m) Hm) as Gm.
  pose proof (proj1 (SwMetrics_wf_get o) Ho) as Go.
  pose proof (proj1 (SwResult_wf_get r) Hr) as Gr.
  assert (Key : forall a b : Z,
             U64.in_range a = true -> U64.in_range b = true ->
             (U64.add a b < a <-> U64.max_value < a + b) /\
             (a <= U64.add a b <-> a + b <= U64.max_value)).
  { intros a b Ha Hb.
    destruct (Z.le_gt_cases (a + b) U64.max_value) as [Hle | Hgt].
    - rewrite (u64_add_exact a b Ha Hb Hle).
      apply u64_in_range_iff in Hb. lia.
    - rewrite (u64_add_overflow a b Ha Hb Hgt).
      apply u64_in_range_iff in Hb. lia. }
  split.
  - intros w. cbv zeta. rewrite SwMetrics_get_update_work.
    apply Key; auto.
  - intros c. cbv zeta. rewrite SwMetrics_get_merge.
    apply Key; auto.
Qed.

Lemma wrap_shows_as_decrease_witness :
  SwMetrics.wf Samples.metrics_max /\
  SwMetrics.wf Samples.metrics_a /\
  SwResult.wf Samples.result_one /\
  SwMetrics.sws (SwMetrics.update Samples.metrics_max Samples.result_one) <
  SwMetrics.sws Samples.metrics_max.
Proof.
  assert (Hm : SwMetrics.wf Samples.metrics_max).
  { unfold SwMetrics.wf. simpl. repeat split; reflexivity. }
  assert (Ho : SwMetrics.wf Samples.metrics_a).
  { unfold SwMetrics.wf. simpl. repeat split; reflexivity. }
  assert (Hr : SwResult.wf Samples.result_one).
  { unfold SwResult.wf. simpl. repeat split; reflexivity. }
  split; [exact Hm | split; [exact Ho | split; [exact Hr |]]].
  exact (proj2 (proj1 (proj1 (@wrap_shows_as_decrease Samples.metrics_max
           Samples.metrics_a Samples.result_one true Hm Ho Hr)
           SwResult.SWS)) eq_refl).
Defined.

(* ------------------------------------------------------------------ *)
(** ** What SwResult::reverse leaves alone *)

(** [reverse] writes [alres] only: the eight counters, [nup] and [ndn] read
    as before, so a result contributes the same to an aggregator before and
    after it is reversed. *)
Theorem reverse_keeps_counters (r : SwResult.t) :
  (forall w : SwResult.counter,
      SwResult.get w (SwResult.reverse r) = SwResult.get w r) /\
  SwResult.nup (SwResult.reverse r) = SwResult.nup r /\
  SwResult.ndn (SwResult.reverse r) = SwResult.ndn r /\
  (forall m : SwMetrics.t,
      SwMetrics.update m (SwResult.reverse r) = SwMetrics.update m r).
Proof.
  split; [| split; [| split]].
  - intros []; reflexivity.
  - reflexivity.
  - reflexivity.
  - intros m. rewrite !SwMetrics_update_eq. reflexivity.
Qed.

(* ------------------------------------------------------------------ *)
(** ** What the stream sinks write *)

Lemma lines_add (n k : nat) :
  StreamTabSwActionSink.lines (n + k) =
  (StreamTabSwActionSink.lines n ++ StreamTabSwActionSink.lines k)%string.
Proof.
  induction n as [| n IH]; simpl.
  - reflexivity.
  - rewrite IH. reflexivity.
Qed.

Lemma reportActions_stream
  (this : StreamTabSwActionSink.t) (acts : list SwAction) :
  StreamTabSwActionSink.os_ (reportActions this acts) =
  ostream.mk
    (ostream.chars (StreamTabSwActionSink.os_ this) ++
     StreamTabSwActionSink.lines (List.length acts))
    (ostream.flushes (StreamTabSwActionSink.os_ this)).
Proof.
  unfold reportActions, ThreadSafe_ctor.
  cbn [reportActionsImpl action_lock action_set_lock
       StreamTabSwActionSink_sink].
  unfold StreamTabSwActionSink.reportActionsImpl.
  cbn [StreamTabSwActionSink.os_ StreamTabSwActionSink.set_lock_].
  apply for_loop_spec.
Qed.

Lemma records_occurrences (x : ascii) (cs : list SwCounters.t) :
  (forall c, ostream.occurrences x (StreamTabSwCounterSink.record_of c) = 1%nat) ->
  ostream.occurrences x
    (String.concat EmptyString (map StreamTabSwCounterSink.record_of cs)) =
  List.length cs.
Proof.
  intros Hx. induction cs as [| c cs IH].
  - reflexivity.
  - destruct cs as [| c' cs].
    + simpl. apply Hx.
    + change (String.concat EmptyString
                (map StreamTabSwCounterSink.record_of (c :: c' :: cs)))
        with (StreamTabSwCounterSink.record_of c ++
              String.concat EmptyString
                (map StreamTabSwCounterSink.record_of (c' :: cs)))%string.
      rewrite occurrences_app, IH, Hx. reflexivity.
Qed.

Lemma record_one_newline (c : SwCounters.t) :
  ostream.occurrences (ascii_of_nat 10) (StreamTabSwCounterSink.record_of c) =
  1%nat.
Proof.
  unfold StreamTabSwCounterSink.record_of.
  destruct (decimal_no_separator (SwCounters.cups c)) as [_ H1].
  destruct (decimal_no_separator (SwCounters.bts c)) as [_ H2].
  rewrite !occurrences_app, H1, H2. reflexivity.
Qed.

Lemma record_one_tab (c : SwCounters.t) :
  ostream.occurrences (ascii_of_nat 9) (StreamTabSwCounterSink.record_of c) =
  1%nat.
Proof.
  unfold StreamTabSwCounterSink.record_of.
  destruct (decimal_no_separator (SwCounters.cups c)) as [H1 _].
  destruct (decimal_no_separator (SwCounters.bts c)) as [H2 _].
  rewrite !occurrences_app, H1, H2. reflexivity.
Qed.

(** One line per report: a run of [reportCounters] calls over a list of
    counters objects adds as many newlines, and as many tabs, to the stream
    as the list has objects. *)
Theorem run_of_reports_counts_lines
  (this : StreamTabSwCounterSink.t) (cs : list SwCounters.t) :
  let before := ostream.chars (StreamTabSwCounterSink.os_ this) in
  let after :=
    ostream.chars
      (StreamTabSwCounterSink.os_ (fold_left reportCounters cs this)) in
  ostream.occurrences (ascii_of_nat 10) after =
    (ostream.occurrences (ascii_of_nat 10) before + List.length cs)%nat /\
  ostream.occurrences (ascii_of_nat 9) after =
    (ostream.occurrences (ascii_of_nat 9) before + List.length cs)%nat.
Proof.
  cbv zeta. rewrite reportCounters_run. cbn [ostream.chars].
  rewrite !occurrences_app.
  rewrite (@records_occurrences _ cs record_one_newline).
  rewrite (@records_occurrences _ cs record_one_tab).
  split; reflexivity.
Qed.

(** An empty action list writes nothing, and reporting two lists one after
    the other leaves the stream as reporting their concatenation does. *)
Theorem reportActions_composes
  (this : StreamTabSwActionSink.t) (acts1 acts2 : list SwAction) :
  StreamTabSwActionSink.os_ (reportActions this []) =
    StreamTabSwActionSink.os_ this /\
  StreamTabSwActionSink.os_ (reportActions (reportActions this acts1) acts2) =
    StreamTabSwActionSink.os_ (reportActions this (acts1 ++ acts2)).
Proof.
  split.
  - rewrite reportActions_stream. simpl. rewrite string_app_nil_r.
    destruct (StreamTabSwActionSink.os_ this). reflexivity.
  - rewrite !reportActions_stream. cbn [ostream.chars ostream.flushes].
    rewrite length_app, lines_add, string_app_assoc. reflexivity.
Qed.

(** ** The record format can be read back *)

Lemma decimal_inj (x y : Z) :
  0 <= x -> 0 <= y -> ostream.decimal x = ostream.decimal y -> x = y.
Proof.
  intros Hx Hy H. unfold ostream.decimal in H.
  apply (f_equal NilEmpty.uint_of_string) in H.
  rewrite !NilEmpty.usu in H.
  injection H as H.
  apply (f_equal N.of_uint) in H.
  rewrite !DecimalN.Unsigned.of_to in H.
  apply Z2N.inj; assumption.
Qed.

Lemma occurrences_cons_zero (x y : ascii) (s : string) :
  ostream.occurrences x (String y s) = O ->
  x <> y /\ ostream.occurrences x s = O.
Proof.
  simpl. destruct (Ascii.eqb x y) eqn:E.
  - discriminate.
  - intros H. split.
    + apply Ascii.eqb_neq. exact E.
    + exact H.
Qed.

(** Two texts cut at the first occurrence of a separator agree on both
    sides of the cut. *)
Lemma split_at_separator (x : ascii) (a a' b b' : string) :
  ostream.occurrences x a = O -> ostream.occurrences x a' = O ->
  (a ++ String x b)%string = (a' ++ String x b')%string ->
  a = a' /\ b = b'.
Proof.
  revert a'. induction a as [| y a IH]; intros [| y' a'] Ha Ha' H; simpl in H.
  - injection H as H. split; [reflexivity | exact H].
  - injection H as Hxy _. apply occurrences_cons_zero in Ha'.
    destruct Ha' as [Hne _]. contradiction.
  - injection H as Hxy _. apply occurrences_cons_zero in Ha.
    destruct Ha as [Hne _]. symmetry in Hxy. contradiction.
  - injection H as Hy Htl. subst y'.
    apply occurrences_cons_zero in Ha. apply occurrences_cons_zero in Ha'.
    destruct (IH a' (proj2 Ha) (proj2 Ha') Htl) as [-> ->].
    split; reflexivity.
Qed.

(** The record determines the counters: two counters objects that differ in
    [cups] or in [bts] are written as different records. *)
Theorem distinct_counters_distinct_records
  (c1 c2 : SwCounters.t)
  (Hcups1 : 0 <= SwCounters.cups c1) (Hbts1 : 0 <= SwCounters.bts c1)
  (Hcups2 : 0 <= SwCounters.cups c2) (Hbts2 : 0 <= SwCounters.bts c2)
  (Hne : c1 <> c2) :
  StreamTabSwCounterSink.record_of c1 <> StreamTabSwCounterSink.record_of c2.
Proof.
  intros H. apply Hne. clear Hne.
  unfold StreamTabSwCounterSink.record_of in H.
  change ostream.TAB with (String (ascii_of_nat 9) EmptyString) in H.
  change ostream.NL with (String (ascii_of_nat 10) EmptyString) in H.
  cbn [append] in H.
  apply split_at_separator in H;
    [| apply decimal_no_separator | apply decimal_no_separator].
  destruct H as [Hc Hb].
  apply split_at_separator in Hb;
    [| apply decimal_no_separator | apply decimal_no_separator].
  destruct Hb as [Hb _].
  apply decimal_inj in Hc; [| assumption | assumption].
  apply decimal_inj in Hb; [| assumption | assumption].
  destruct c1, c2. simpl in *. subst. reflexivity.
Qed.

Lemma distinct_counters_distinct_records_witness :
  Samples.counters_12 <> Samples.counters_34 /\
  StreamTabSwCounterSink.record_of Samples.counters_12 <>
  StreamTabSwCounterSink.record_of Samples.counters_34.
Proof.
  assert (Hne : Samples.counters_12 <> Samples.counters_34) by discriminate.
  split.
  - exact Hne.
  - apply (@distinct_counters_distinct_records
             Samples.counters_12 Samples.counters_34);
      [ simpl; lia | simpl; lia | simpl; lia | simpl; lia | exact Hne ].
Defined.
